(** * Nusarithm IAM backend: authentication flow, token codec and pagination

    A shallow embedding of the Go services of the IAM backend
    ([internal/application/services], [internal/infrastructure/repositories],
    [internal/presentation/handlers]) together with the parts of the Go
    standard library and of [github.com/golang-jwt/jwt/v5] they call.

    Go strings are byte sequences and are modelled by [string]; [[]byte] is
    [list byte]; [int] is a 64-bit two's complement integer carried in [Z]. *)

From Stdlib Require Import ZArith List Lia Bool.
From Stdlib.Strings Require Import String Ascii Byte.
From stdpp Require Import base option list strings pretty finite gmap.
Import ListNotations.
Set Warnings "-register-all".
Local Open Scope string_scope.
Local Open Scope Z_scope.
Local Open Scope list_scope.

(** ** Bytes *)

Module Bytes.

Definition byte_of_Z (z : Z) : byte :=
  match Byte.of_N (Z.to_N (z mod 256)) with
  | Some b => b
  | None => x00
  end.

Definition Z_of_byte (b : byte) : Z := Z.of_N (Byte.to_N b).

(** [[]byte(s)] *)
Definition of_string (s : string) : list byte := list_byte_of_string s.

(** [string(b)] *)
Definition to_string (b : list byte) : string := string_of_list_byte b.

(** Big-endian value of a byte sequence. *)
Definition be_value (bs : list byte) : Z :=
  fold_left (fun acc b => acc * 256 + Z_of_byte b) bs 0.

(** The [n] low bytes of [x], most significant first
    ([binary.BigEndian.PutUint32], [PutUint64]). *)
Definition be_bytes (n : nat) (x : Z) : list byte :=
  List.map (fun i => byte_of_Z (Z.shiftr x (8 * Z.of_nat i))) (rev (seq 0 n)).

Fixpoint chunks_fuel {A} (fuel n : nat) (l : list A) : list (list A) :=
  match fuel with
  | O => []
  | S fuel' =>
      match l with
      | [] => []
      | _ => firstn n l :: chunks_fuel fuel' n (skipn n l)
      end
  end.

(** Consecutive slices of [n] elements; the last one may be shorter. *)
Definition chunks {A} (n : nat) (l : list A) : list (list A) :=
  chunks_fuel (List.length l) n l.

Definition xor_byte (c : Z) (b : byte) : byte :=
  byte_of_Z (Z.lxor c (Z_of_byte b)).

(** Bytes are a finite type, through their eight bits. *)
#[global] Instance byte_eq_dec : EqDecision byte := Byte.byte_eq_dec.

#[global] Instance of_bits_inj : Inj (=) (=) Byte.of_bits.
Proof.
  intros x y H. rewrite <- (Byte.to_bits_of_bits x), <- (Byte.to_bits_of_bits y). now rewrite H.
Qed.

#[global] Instance of_bits_surj : Surj (=) Byte.of_bits.
Proof. intros b. exists (Byte.to_bits b). apply Byte.of_bits_to_bits. Qed.

#[global] Instance byte_finite : Finite byte := bijective_finite Byte.of_bits.

End Bytes.

(** ** SHA-2 (FIPS 180-4), as [crypto/sha256] and [crypto/sha512] compute it *)

Module Sha2.
Import Bytes.

Record Params := mkParams {
  wbits : Z;                 (* word size: 32 or 64 *)
  Kc : list Z;               (* round constants, one per round *)
  IV : list Z;               (* initial hash value, eight words *)
  bigSigma0 : Z * Z * Z;     (* three rotations *)
  bigSigma1 : Z * Z * Z;
  smallSigma0 : Z * Z * Z;   (* two rotations and a shift *)
  smallSigma1 : Z * Z * Z;
  outWords : nat             (* words of the final state that are output *)
}.

Record Regs := mkRegs { ra : Z; rb : Z; rc : Z; rd : Z; re : Z; rf : Z; rg : Z; rh : Z }.

Section Generic.
Variable P : Params.

Let w := wbits P.

Definition wrap (x : Z) : Z := x mod 2 ^ w.
Definition rotr (n x : Z) : Z :=
  Z.lor (Z.shiftr x n) (wrap (Z.shiftl x (w - n))).
Definition Ch (x y z : Z) : Z :=
  Z.lxor (Z.land x y) (Z.land (Z.lxor x (2 ^ w - 1)) z).
Definition Maj (x y z : Z) : Z :=
  Z.lxor (Z.lxor (Z.land x y) (Z.land x z)) (Z.land y z).
Definition rot3 (r : Z * Z * Z) (x : Z) : Z :=
  let '(r1, r2, r3) := r in Z.lxor (Z.lxor (rotr r1 x) (rotr r2 x)) (rotr r3 x).
Definition rot2shift (r : Z * Z * Z) (x : Z) : Z :=
  let '(r1, r2, s) := r in Z.lxor (Z.lxor (rotr r1 x) (rotr r2 x)) (Z.shiftr x s).

Definition wordBytes : nat := Z.to_nat (w / 8).
Definition blockSize : nat := (16 * wordBytes)%nat.
Definition lengthBytes : nat := (2 * wordBytes)%nat.

(** Padding: a 1 bit, zeros, and the message length in bits. *)
Definition pad (msg : list byte) : list byte :=
  let l := List.length msg in
  let used := ((l + 1 + lengthBytes) mod blockSize)%nat in
  let zeros := ((blockSize - used) mod blockSize)%nat in
  msg ++ [x80] ++ repeat x00 zeros ++ be_bytes lengthBytes (8 * Z.of_nat l).

Definition regs_of (l : list Z) : Regs :=
  match l with
  | [a; b; c; d; e; f; g; h] => mkRegs a b c d e f g h
  | _ => mkRegs 0 0 0 0 0 0 0 0
  end.

Definition regs_list (r : Regs) : list Z :=
  [ra r; rb r; rc r; rd r; re r; rf r; rg r; rh r].

(** One round.  [ws] holds the sixteen schedule words W[t] .. W[t+15]. *)
Definition round (st : Regs * list Z) (k : Z) : Regs * list Z :=
  let '(r, ws) := st in
  let wt := nth 0 ws 0 in
  let next :=
    wrap (rot2shift (smallSigma1 P) (nth 14 ws 0) + nth 9 ws 0
          + rot2shift (smallSigma0 P) (nth 1 ws 0) + wt) in
  let t1 := wrap (rh r + rot3 (bigSigma1 P) (re r) + Ch (re r) (rf r) (rg r) + k + wt) in
  let t2 := wrap (rot3 (bigSigma0 P) (ra r) + Maj (ra r) (rb r) (rc r)) in
  (mkRegs (wrap (t1 + t2)) (ra r) (rb r) (rc r) (wrap (rd r + t1)) (re r) (rf r) (rg r),
   tl ws ++ [next]).

Definition compress (h : Regs) (block : list byte) : Regs :=
  let ws := List.map be_value (chunks wordBytes block) in
  let r := fst (fold_left round (Kc P) (h, ws)) in
  mkRegs (wrap (ra h + ra r)) (wrap (rb h + rb r)) (wrap (rc h + rc r))
         (wrap (rd h + rd r)) (wrap (re h + re r)) (wrap (rf h + rf r))
         (wrap (rg h + rg r)) (wrap (rh h + rh r)).

Definition digest (msg : list byte) : list byte :=
  let final := fold_left compress (chunks blockSize (pad msg)) (regs_of (IV P)) in
  flat_map (be_bytes wordBytes) (firstn (outWords P) (regs_list final)).
End Generic.

(** The constants are given by their definition: the first [bits] bits of
    the fractional part of the square (initial hash values) or cube (round
    constants) root of a prime. *)

Definition is_prime (n : Z) : bool :=
  (1 <? n) && forallb (fun d => negb (n mod Z.of_nat d =? 0)) (seq 2 (Z.to_nat n - 2)).

(** The primes below 410: there are eighty of them. *)
Definition primes : list Z :=
  List.filter is_prime (List.map Z.of_nat (seq 2 408)).

(** The largest [r] below [2 ^ 72] with [r ^ k <= x]. *)
Definition iroot (k x : Z) : Z :=
  fold_left (fun r i => let r' := r + 2 ^ Z.of_nat i in if r' ^ k <=? x then r' else r)
            (rev (seq 0 72)) 0.

Definition root_fraction (k bits p : Z) : Z :=
  iroot k (p * 2 ^ (k * bits)) mod 2 ^ bits.

Definition K256 : list Z :=
  Eval vm_compute in List.map (root_fraction 3 32) (firstn 64 primes).
Definition H256 : list Z :=
  Eval vm_compute in List.map (root_fraction 2 32) (firstn 8 primes).
Definition K512 : list Z :=
  Eval vm_compute in List.map (root_fraction 3 64) (firstn 80 primes).
Definition H512 : list Z :=
  Eval vm_compute in List.map (root_fraction 2 64) (firstn 8 primes).
Definition H384 : list Z :=
  Eval vm_compute in List.map (root_fraction 2 64) (firstn 8 (skipn 8 primes)).

Definition sha256_params : Params :=
  mkParams 32 K256 H256 (2, 13, 22) (6, 11, 25) (7, 18, 3) (17, 19, 10) 8.
Definition sha512_params : Params :=
  mkParams 64 K512 H512 (28, 34, 39) (14, 18, 41) (1, 8, 7) (19, 61, 6) 8.
Definition sha384_params : Params :=
  mkParams 64 K512 H384 (28, 34, 39) (14, 18, 41) (1, 8, 7) (19, 61, 6) 6.

(** [sha256.Sum256] *)
Definition Sum256 (data : list byte) : list byte := digest sha256_params data.
(** [sha512.Sum384], [sha512.Sum512] *)
Definition Sum384 (data : list byte) : list byte := digest sha384_params data.
Definition Sum512 (data : list byte) : list byte := digest sha512_params data.

End Sha2.

(** ** HMAC (RFC 2104), as [crypto/hmac] computes it *)

Module Hmac.
Import Bytes.

Definition ipad : Z := 0x36.
Definition opad : Z := 0x5c.

(** [hmac.New]: a key longer than the block is hashed first, then the key
    is copied into a zeroed block. *)
Definition blockKey (P : Sha2.Params) (key : list byte) : list byte :=
  let B := Sha2.blockSize P in
  let k := if (B <? List.length key)%nat then Sha2.digest P key else key in
  k ++ repeat x00 (B - List.length k).

(** [h := hmac.New(H, key); h.Write(msg); h.Sum(nil)] *)
Definition Sum (P : Sha2.Params) (key msg : list byte) : list byte :=
  let k := blockKey P key in
  Sha2.digest P (List.map (xor_byte opad) k
                 ++ Sha2.digest P (List.map (xor_byte ipad) k ++ msg)).

Fixpoint bytes_eqb (a b : list byte) : bool :=
  match a, b with
  | [], [] => true
  | x :: a', y :: b' => Byte.eqb x y && bytes_eqb a' b'
  | _, _ => false
  end.

(** [hmac.Equal]: equality of the two MACs (constant time in Go). *)
Definition Equal (mac1 mac2 : list byte) : bool := bytes_eqb mac1 mac2.

End Hmac.

(** ** Text encodings used by the services and the token codec *)

Module Encoding.
Import Bytes.

Definition chars (s : string) : list ascii := list_ascii_of_string s.
Definition str (l : list ascii) : string := string_of_list_ascii l.
Definition code (c : ascii) : Z := Z.of_N (N_of_ascii c).
Definition char_of (z : Z) : ascii := ascii_of_N (Z.to_N (z mod 256)).

Definition hexDigit (z : Z) : ascii := nth (Z.to_nat z) (chars "0123456789abcdef") "0"%char.

Definition hexByte (z : Z) : list ascii := [hexDigit (z / 16); hexDigit (z mod 16)].

(** [fmt.Sprintf("%x", b)] on a byte array: two lower-case digits per byte. *)
Definition Sprintf_x (b : list byte) : string :=
  str (flat_map (fun x => hexByte (Z_of_byte x)) b).

(** *** base64, URL alphabet, no padding ([base64.RawURLEncoding]) *)

Definition b64Digit (z : Z) : ascii :=
  nth (Z.to_nat z)
      (chars "ABCDEFGHIJKLMNOPQRSTUVWXYZabcdefghijklmnopqrstuvwxyz0123456789-_") "A"%char.

Fixpoint b64 (l : list Z) : list ascii :=
  match l with
  | [] => []
  | [a] => [b64Digit (a / 4); b64Digit (a mod 4 * 16)]
  | [a; b] => [b64Digit (a / 4); b64Digit (a mod 4 * 16 + b / 16); b64Digit (b mod 16 * 4)]
  | a :: b :: c :: rest =>
      b64Digit (a / 4) :: b64Digit (a mod 4 * 16 + b / 16)
      :: b64Digit (b mod 16 * 4 + c / 64) :: b64Digit (c mod 64) :: b64 rest
  end.

(** [base64.RawURLEncoding.EncodeToString] *)
Definition EncodeSegment (seg : list byte) : string := str (b64 (List.map Z_of_byte seg)).

(** *** JSON text ([encoding/json], HTML escaping on) *)

Definition quote : ascii := "034"%char.
Definition backslash : ascii := "092"%char.

(** Length of the UTF-8 sequence that starts with [b] and continues with
    [rest], as [utf8.DecodeRuneInString] accepts it; [0] when the bytes are
    not a valid encoding. *)
Definition utf8_len (b : Z) (rest : list Z) : nat :=
  let cont x := (0x80 <=? x) && (x <=? 0xBF) in
  let n i := nth i rest 0 in
  if (0xC2 <=? b) && (b <=? 0xDF) then
    if cont (n 0%nat) then 2 else 0
  else if (0xE0 <=? b) && (b <=? 0xEF) then
    let lo := if b =? 0xE0 then 0xA0 else 0x80 in
    let hi := if b =? 0xED then 0x9F else 0xBF in
    if (lo <=? n 0%nat) && (n 0%nat <=? hi) && cont (n 1%nat) then 3 else 0
  else if (0xF0 <=? b) && (b <=? 0xF4) then
    let lo := if b =? 0xF0 then 0x90 else 0x80 in
    let hi := if b =? 0xF4 then 0x8F else 0xBF in
    if (lo <=? n 0%nat) && (n 0%nat <=? hi) && cont (n 1%nat) && cont (n 2%nat) then 4 else 0
  else 0.

Definition u00 (b : Z) : list ascii := backslash :: chars "u00" ++ hexByte b.

(** One ASCII byte inside a JSON string. *)
Definition escapeASCII (b : Z) : list ascii :=
  if (b =? 34) || (b =? 92) then [backslash; char_of b]
  else if b =? 10 then [backslash; "n"%char]
  else if b =? 13 then [backslash; "r"%char]
  else if b =? 9 then [backslash; "t"%char]
  else if (b <? 32) || (b =? 60) || (b =? 62) || (b =? 38) then u00 b
  else [char_of b].

(** [copy] bytes are passed through (the tail of a valid sequence), [skip]
    bytes are dropped (the tail of U+2028 or U+2029, written escaped). *)
Fixpoint escape (copy skip : nat) (l : list Z) : list ascii :=
  match l with
  | [] => []
  | b :: rest =>
      match copy, skip with
      | S c, _ => char_of b :: escape c skip rest
      | O, S k => escape O k rest
      | O, O =>
          if b <? 0x80 then escapeASCII b ++ escape O O rest
          else match utf8_len b rest with
               | O => backslash :: chars "ufffd" ++ escape O O rest
               | S n =>
                   if (b =? 0xE2) && (nth 0 rest 0 =? 0x80)
                      && ((nth 1 rest 0 =? 0xA8) || (nth 1 rest 0 =? 0xA9))
                   then backslash :: chars "u202" ++ [hexDigit (nth 1 rest 0 - 0xA0)]
                        ++ escape O n rest
                   else char_of b :: escape n O rest
               end
      end
  end.

(** A Go string as a JSON string literal. *)
Definition jsonString (s : string) : list ascii :=
  quote :: escape 0 0 (List.map code (chars s)) ++ [quote].

(** [strconv.FormatInt(n, 10)] *)
Definition FormatInt (n : Z) : list ascii := chars (pretty n).

Fixpoint joinWith (sep : list ascii) (parts : list (list ascii)) : list ascii :=
  match parts with
  | [] => []
  | [p] => p
  | p :: ps => p ++ sep ++ joinWith sep ps
  end.

(** A JSON object from its rendered members, in the given order. *)
Definition jsonObject (members : list (string * list ascii)) : list ascii :=
  "{"%char
  :: joinWith [","%char] (List.map (fun m => jsonString (fst m) ++ ":"%char :: snd m) members)
  ++ ["}"%char].

Definition jsonArray (items : list (list ascii)) : list ascii :=
  "["%char :: joinWith [","%char] items ++ ["]"%char].

Definition bytes_of_chars (l : list ascii) : list byte := List.map byte_of_ascii l.

End Encoding.

(** ** [github.com/google/uuid] *)

Module uuid.
Import Bytes Encoding.

(** A [uuid.UUID] is a [[16]byte]; it is carried as the 128-bit number its
    bytes spell, most significant byte first. *)
Definition UUID : Type := N.

Definition Nil : UUID := 0%N.

Definition bytes (u : UUID) : list byte := be_bytes 16 (Z.of_N u).

(** [UUID.String]: xxxxxxxx-xxxx-xxxx-xxxx-xxxxxxxxxxxx *)
Definition String (u : UUID) : string :=
  let hx (l : list byte) := flat_map (fun x => hexByte (Z_of_byte x)) l in
  let b := bytes u in
  let part i n := hx (firstn n (skipn i b)) in
  str (part 0%nat 4%nat ++ "-"%char :: part 4%nat 2%nat ++ "-"%char :: part 6%nat 2%nat
       ++ "-"%char :: part 8%nat 2%nat ++ "-"%char :: part 10%nat 6%nat).

Definition eqb (a b : UUID) : bool := N.eqb a b.

End uuid.

(** ** Go errors and results *)

Module errors.

(** An error value: [errors.New] / [fmt.Errorf] without [%w]; [fmt.Errorf]
    with [%w] verbs (the rendered text and the wrapped errors); and the
    token library's joined error. *)
Inductive error : Type :=
| errorString (s : string)
| wrapError (msg : string) (errs : list error)
| joinedError (errs : list error).

Fixpoint joinStrings (sep : string) (l : list string) : string :=
  match l with
  | [] => ""
  | [s] => s
  | s :: l' => s +:+ sep +:+ joinStrings sep l'
  end.

(** The [Error()] method. *)
Fixpoint Error (e : error) : string :=
  match e with
  | errorString s => s
  | wrapError msg _ => msg
  | joinedError errs => joinStrings ", " (List.map Error errs)
  end.

Definition New (s : string) : error := errorString s.

(** [errors.Unwrap] for one level. *)
Definition Unwrap (e : error) : list error :=
  match e with
  | errorString _ => []
  | wrapError _ errs => errs
  | joinedError errs => errs
  end.

End errors.
Export errors.

Module fmt.

(** [fmt.Errorf(msg)] with no verb. *)
Definition Errorf (msg : string) : error := errorString msg.

(** [fmt.Errorf(prefix + "%v", v)] *)
Definition Errorf_v (prefix v : string) : error := errorString (prefix +:+ v).

(** [fmt.Errorf(prefix + "%w", err)] *)
Definition Errorf_w (prefix : string) (err : error) : error :=
  wrapError (prefix +:+ Error err) [err].

End fmt.

(** A Go return pair [(T, error)] with exactly one side set. *)
Inductive result (A : Type) : Type :=
| Ok (a : A)
| Err (e : error).
Arguments Ok {A} a.
Arguments Err {A} e.

(** A call that either returns or panics. *)
Inductive exec (A : Type) : Type :=
| Return (a : A)
| Panic (msg : string).
Arguments Return {A} a.
Arguments Panic {A} msg.

(** ** Go's [int] on a 64-bit platform *)

Module int.

Definition MaxInt : Z := 2 ^ 63 - 1.
Definition MinInt : Z := - 2 ^ 63.

Definition inRange (z : Z) : Prop := MinInt <= z <= MaxInt.

(** Two's complement wrap-around of a mathematical integer. *)
Definition wrap (z : Z) : Z := (z + 2 ^ 63) mod 2 ^ 64 - 2 ^ 63.

Definition add (a b : Z) : Z := wrap (a + b).
Definition sub (a b : Z) : Z := wrap (a - b).
Definition mul (a b : Z) : Z := wrap (a * b).

(** [a / b]: truncated division; a zero divisor panics. *)
Definition quo (a b : Z) : exec Z :=
  if b =? 0 then Panic "runtime error: integer divide by zero"
  else Return (wrap (Z.quot a b)).

End int.

(** ** [time] *)

Module time.

(** A [time.Time] as nanoseconds since the Unix epoch; a [time.Duration]
    is a number of nanoseconds. *)
Definition Time : Type := Z.
Definition Duration : Type := Z.

(** The zero [time.Time]: January 1, year 1, 00:00:00 UTC. *)
Definition Zero : Time := -62135596800 * 1000000000.

Definition Second : Duration := 1000000000.
Definition Hour : Duration := 3600 * Second.

Definition Add (t : Time) (d : Duration) : Time := t + d.
Definition Before (t u : Time) : bool := t <? u.
(** [time.Unix(sec, 0)] *)
Definition Unix (sec : Z) : Time := sec * Second.

End time.

(** ** Entities *)

(** [interface{}] values held in a role's claims (decoded JSON). *)
Inductive any : Type :=
| anyNil
| anyBool (b : bool)
| anyNumber (literal : string)
| anyString (s : string)
| anySlice (l : list any)
| anyObject (m : list (string * any)).

(** A [map[string]interface{}]: [None] is the nil map. *)
Definition claimsMap : Type := option (gmap string any).

(** [make(map[string]interface{})] *)
Definition make_map : claimsMap := Some ∅.

Module User.
Record t := mk {
  ID : uuid.UUID;
  DomainID : uuid.UUID;
  RoleID : uuid.UUID;
  FirstName : string;
  LastName : string;
  Username : string;
  Email : string;
  PasswordHash : string;
  CreatedAt : time.Time;
  UpdatedAt : time.Time
}.
End User.

Module Role.
Record t := mk {
  ID : uuid.UUID;
  DomainID : uuid.UUID;
  RoleName : string;
  RoleClaims : claimsMap;
  CreatedAt : time.Time;
  UpdatedAt : time.Time
}.
End Role.

Module Domain.
Record t := mk {
  DomainID : uuid.UUID;
  Name : string;
  Domain : string
}.
End Domain.

(** ** Repositories *)

Module repositories.

(** [UserListResult], [RoleListResult] and [DomainListResult] have the
    same fields; [Items] is [Users], [Roles] or [Domains]. *)
Record ListResult (A : Type) := mkListResult {
  Items : list A;
  Total : Z;
  Page : Z;
  Limit : Z;
  TotalPages : Z
}.
Arguments mkListResult {A}.
Arguments Items {A}.
Arguments Total {A}.
Arguments Page {A}.
Arguments Limit {A}.
Arguments TotalPages {A}.

(** The repository interfaces, over the state [S] of the storage they
    talk to.  Only the methods the modelled services call are listed. *)
Module UserRepository.
Record t (S : Type) := mk {
  GetByID : uuid.UUID -> S -> result User.t;
  GetByUsername : string -> S -> result User.t;
  ListWithPagination :
    string -> uuid.UUID -> Z -> Z -> S -> exec (result (ListResult User.t))
}.
Arguments GetByID {S}.
Arguments GetByUsername {S}.
Arguments ListWithPagination {S}.
End UserRepository.

Module RoleRepository.
Record t (S : Type) := mk {
  GetByID : uuid.UUID -> S -> result Role.t;
  (* [Create] and [Update] receive a pointer: the role as the method left
     it comes back with the error and the new state. *)
  Create : Role.t -> S -> option error * Role.t * S;
  Update : Role.t -> S -> option error * Role.t * S;
  ListWithPagination :
    string -> uuid.UUID -> Z -> Z -> S -> exec (result (ListResult Role.t))
}.
Arguments GetByID {S}.
Arguments Create {S}.
Arguments Update {S}.
Arguments ListWithPagination {S}.
End RoleRepository.

Module DomainRepository.
Record t (S : Type) := mk {
  GetByID : uuid.UUID -> S -> result Domain.t;
  ListWithPagination :
    string -> Z -> Z -> S -> exec (result (ListResult Domain.t))
}.
Arguments GetByID {S}.
Arguments ListWithPagination {S}.
End DomainRepository.

(** The body shared, statement for statement, by
    [domainRepository.ListWithPagination], [userRepository.ListWithPagination]
    and [roleRepository.ListWithPagination].  The database is seen through
    its answers to the two statements: [queryCount search] is
    [SELECT COUNT( * ) ...] scanned into [total], and
    [queryRows search limit offset] is the [... LIMIT $n OFFSET $m] query
    with its rows scanned. *)
Section Pagination.
Context {Row : Type}.
Variable queryCount : string -> result Z.
Variable queryRows : string -> Z -> Z -> result (list Row).

Definition ListWithPagination (search : string) (page limit : Z)
  : exec (result (ListResult Row)) :=
  (* Calculate offset *)
  let offset := int.mul (int.sub page 1) limit in
  (* Get total count *)
  match queryCount search with
  | Err err => Return (Err err)
  | Ok total =>
      (* Get paginated results *)
      match queryRows search limit offset with
      | Err err => Return (Err err)
      | Ok rows =>
          (* Calculate total pages *)
          match int.quo (int.sub (int.add total limit) 1) limit with
          | Panic msg => Panic msg
          | Return totalPages =>
              Return (Ok (mkListResult rows total page limit totalPages))
          end
      end
  end.
End Pagination.

(** What the repositories reach through [*sql.DB], over the state [S] of
    the world: the answer of the database to each statement they issue
    (rows already scanned into entities), and [uuid.New()]. *)
Record Backend (S : Type) := mkBackend {
  selectUserByID : uuid.UUID -> S -> result User.t;
  selectUserByUsername : string -> S -> result User.t;
  countUsers : uuid.UUID -> string -> S -> result Z;
  pageUsers : uuid.UUID -> string -> Z -> Z -> S -> result (list User.t);
  selectRoleByID : uuid.UUID -> S -> result Role.t;
  insertRole : Role.t -> S -> result uuid.UUID * S;
  updateRole : Role.t -> S -> option error * S;
  countRoles : uuid.UUID -> string -> S -> result Z;
  pageRoles : uuid.UUID -> string -> Z -> Z -> S -> result (list Role.t);
  selectDomainByID : uuid.UUID -> S -> result Domain.t;
  countDomains : string -> S -> result Z;
  pageDomains : string -> Z -> Z -> S -> result (list Domain.t);
  uuid_New : S -> uuid.UUID * S
}.
Arguments selectUserByID {S}.
Arguments selectUserByUsername {S}.
Arguments countUsers {S}.
Arguments pageUsers {S}.
Arguments selectRoleByID {S}.
Arguments insertRole {S}.
Arguments updateRole {S}.
Arguments countRoles {S}.
Arguments pageRoles {S}.
Arguments selectDomainByID {S}.
Arguments countDomains {S}.
Arguments pageDomains {S}.
Arguments uuid_New {S}.

Section Implementations.
Context {S : Type}.
Variable db : Backend S.

(** *** user repository *)

Definition userRepository_ListWithPagination (search : string) (domainID : uuid.UUID)
           (page limit : Z) (st : S) : exec (result (ListResult User.t)) :=
  ListWithPagination (fun q => countUsers db domainID q st)
                     (fun q l o => pageUsers db domainID q l o st) search page limit.

Definition NewUserRepository : UserRepository.t S :=
  UserRepository.mk S (selectUserByID db) (selectUserByUsername db)
                    userRepository_ListWithPagination.

(** *** role_repository.go *)

Definition roleRepository_Create (role : Role.t) (st : S) : option error * Role.t * S :=
  let '(id, st) := uuid_New db st in
  let role := Role.mk id (Role.DomainID role) (Role.RoleName role) (Role.RoleClaims role)
                      (Role.CreatedAt role) (Role.UpdatedAt role) in
  match insertRole db role st with
  | (Err err, st) => (Some err, role, st)
  | (Ok id, st) =>
      (None,
       Role.mk id (Role.DomainID role) (Role.RoleName role) (Role.RoleClaims role)
               (Role.CreatedAt role) (Role.UpdatedAt role),
       st)
  end.

Definition roleRepository_Update (role : Role.t) (st : S) : option error * Role.t * S :=
  let '(err, st) := updateRole db role st in (err, role, st).

Definition roleRepository_ListWithPagination (search : string) (domainID : uuid.UUID)
           (page limit : Z) (st : S) : exec (result (ListResult Role.t)) :=
  ListWithPagination (fun q => countRoles db domainID q st)
                     (fun q l o => pageRoles db domainID q l o st) search page limit.

Definition NewRoleRepository : RoleRepository.t S :=
  RoleRepository.mk S (selectRoleByID db) roleRepository_Create roleRepository_Update
                    roleRepository_ListWithPagination.

(** *** domain repository *)

Definition domainRepository_ListWithPagination (search : string) (page limit : Z) (st : S)
  : exec (result (ListResult Domain.t)) :=
  ListWithPagination (fun q => countDomains db q st)
                     (fun q l o => pageDomains db q l o st) search page limit.

Definition NewDomainRepository : DomainRepository.t S :=
  DomainRepository.mk S (selectDomainByID db) domainRepository_ListWithPagination.
End Implementations.

End repositories.

(** ** The token library, [github.com/golang-jwt/jwt/v5] *)

Module jwt.
Import Bytes Encoding.

(** [crypto.Hash] values the signing methods use. *)
Inductive HashFunc : Type := SHA256 | SHA384 | SHA512.

Definition hashParams (h : HashFunc) : Sha2.Params :=
  match h with
  | SHA256 => Sha2.sha256_params
  | SHA384 => Sha2.sha384_params
  | SHA512 => Sha2.sha512_params
  end.

Definition hashBits (h : HashFunc) : string :=
  match h with SHA256 => "256" | SHA384 => "384" | SHA512 => "512" end.

(** The registered signing methods, by their Go type. *)
Inductive SigningMethod : Type :=
| SigningMethodHMAC (h : HashFunc)
| SigningMethodRSA (h : HashFunc)
| SigningMethodRSAPSS (h : HashFunc)
| SigningMethodECDSA (h : HashFunc)
| SigningMethodEd25519
| signingMethodNone.

Definition SigningMethodHS256 : SigningMethod := SigningMethodHMAC SHA256.
Definition SigningMethodHS512 : SigningMethod := SigningMethodHMAC SHA512.

(** [SigningMethod.Alg] *)
Definition Alg (m : SigningMethod) : string :=
  match m with
  | SigningMethodHMAC h => "HS" +:+ hashBits h
  | SigningMethodRSA h => "RS" +:+ hashBits h
  | SigningMethodRSAPSS h => "PS" +:+ hashBits h
  | SigningMethodECDSA h => "ES" +:+ hashBits h
  | SigningMethodEd25519 => "EdDSA"
  | signingMethodNone => "none"
  end.

Definition registeredMethods : list SigningMethod :=
  flat_map (fun f => [f SHA256; f SHA384; f SHA512])
           [SigningMethodHMAC; SigningMethodRSA; SigningMethodRSAPSS; SigningMethodECDSA]
  ++ [SigningMethodEd25519; signingMethodNone].

(** [GetSigningMethod]: the method registered under the name, if any. *)
Definition GetSigningMethod (alg : string) : option SigningMethod :=
  List.find (fun m => String.eqb (Alg m) alg) registeredMethods.

(** Sentinel errors. *)
Definition ErrInvalidKeyType : error := errors.New "key is of invalid type".
Definition ErrSignatureInvalid : error := errors.New "signature is invalid".
Definition ErrTokenMalformed : error := errors.New "token is malformed".
Definition ErrTokenUnverifiable : error := errors.New "token is unverifiable".
Definition ErrTokenSignatureInvalid : error := errors.New "token signature is invalid".
Definition ErrTokenExpired : error := errors.New "token is expired".
Definition ErrTokenNotValidYet : error := errors.New "token is not valid yet".
Definition ErrTokenInvalidClaims : error := errors.New "token has invalid claims".
Definition NoneSignatureTypeDisallowedError : error :=
  wrapError "token is unverifiable: 'none' signature type is not allowed"
            [ErrTokenUnverifiable].

(** [newError(message, err, more...)]: [err], then the message, then the
    further errors, separated by a colon; all errors are wrapped. *)
Definition newError (message : string) (err : error) (more : list error) : error :=
  let head := if String.eqb message "" then Error err else Error err +:+ ": " +:+ message in
  wrapError (fold_left (fun acc e => acc +:+ ": " +:+ Error e) more head) (err :: more).

(** A [*NumericDate]: whole seconds since the epoch.  [TimePrecision] is a
    second, so issued and decoded dates alike are truncated to it. *)
Definition NumericDate : Type := Z.

(** [NewNumericDate(t)]: [t.Truncate(time.Second)] *)
Definition NewNumericDate (t : time.Time) : NumericDate := t / time.Second.

(** The instant a date stands for. *)
Definition dateTime (d : NumericDate) : time.Time := time.Unix d.

Record RegisteredClaims := mkRegisteredClaims {
  Issuer : string;
  Subject : string;
  Audience : list string;
  ExpiresAt : option NumericDate;
  NotBefore : option NumericDate;
  IssuedAt : option NumericDate;
  ID : string
}.

(** The [Claims] interface, with the JSON members a claims value
    marshals to (in order, [omitempty] members already left out). *)
Class Claims (C : Type) := {
  GetExpirationTime : C -> option NumericDate;
  GetNotBefore : C -> option NumericDate;
  GetIssuedAt : C -> option NumericDate;
  jsonMembers : C -> list (string * list ascii)
}.

(** The members of an embedded [RegisteredClaims]. *)
Definition registeredMembers (r : RegisteredClaims) : list (string * list ascii) :=
  let text k v := if String.eqb v "" then [] else [(k, jsonString v)] in
  let date k d := match d with None => [] | Some n => [(k, FormatInt n)] end in
  text "iss" (Issuer r) ++ text "sub" (Subject r)
  ++ match Audience r with [] => [] | aud => [("aud", jsonArray (List.map jsonString aud))] end
  ++ date "exp" (ExpiresAt r) ++ date "nbf" (NotBefore r) ++ date "iat" (IssuedAt r)
  ++ text "jti" (ID r).

(** A token string as the parser sees it.  The base64url and JSON decoders
    are not modelled: a string made of three segments that decode is given
    by what they decode to (the header's [alg], the claims, the signature
    bytes), and its first two segments are taken to be the encoding that
    [SigningString] writes; any other string is [Malformed]. *)
Inductive TokenString (C : Type) : Type :=
| Compact (alg : option string) (claims : C) (sig : list byte)
| Malformed (raw : string).
Arguments Compact {C}.
Arguments Malformed {C}.

Record Token (C : Type) := mkToken {
  Raw : TokenString C;
  Method : option SigningMethod;
  HeaderAlg : option string;
  TClaims : C;
  Signature : list byte;
  Valid : bool
}.
Arguments mkToken {C}.
Arguments Raw {C}.
Arguments Method {C}.
Arguments HeaderAlg {C}.
Arguments TClaims {C}.
Arguments Signature {C}.
Arguments Valid {C}.

Section Codec.
Context {C : Type} `{Claims C}.

(** The header [{"alg": ..., "typ": "JWT"}] (a map: keys sorted). *)
Definition headerJSON (alg : option string) : list ascii :=
  jsonObject (match alg with Some a => [("alg", jsonString a)] | None => [] end
              ++ [("typ", jsonString "JWT")]).

(** [Token.SigningString]: both segments in base64url, joined by a dot. *)
Definition SigningString (alg : option string) (claims : C) : string :=
  EncodeSegment (bytes_of_chars (headerJSON alg)) +:+ "."
  +:+ EncodeSegment (bytes_of_chars (jsonObject (jsonMembers claims))).

(** [SigningMethod.Sign] with a [[]byte] key. *)
Definition Sign (m : SigningMethod) (signingString : string) (key : list byte)
  : result (list byte) :=
  match m with
  | SigningMethodHMAC h => Ok (Hmac.Sum (hashParams h) key (of_string signingString))
  | signingMethodNone => Err NoneSignatureTypeDisallowedError
  | _ => Err ErrInvalidKeyType (* a byte slice is not this method's key *)
  end.

(** [SigningMethod.Verify] with a [[]byte] key: [None] is a nil error. *)
Definition Verify (m : SigningMethod) (signingString : string) (sig key : list byte)
  : option error :=
  match m with
  | SigningMethodHMAC h =>
      if Hmac.Equal sig (Hmac.Sum (hashParams h) key (of_string signingString))
      then None else Some ErrSignatureInvalid
  | signingMethodNone => Some NoneSignatureTypeDisallowedError
  | _ => Some ErrInvalidKeyType (* a byte slice is not this method's key *)
  end.

(** [NewWithClaims(method, claims).SignedString(key)] *)
Definition SignedString (m : SigningMethod) (claims : C) (key : list byte)
  : result (TokenString C) :=
  let alg := Some (Alg m) in
  match Sign m (SigningString alg claims) key with
  | Err err => Err err
  | Ok sig => Ok (Compact alg claims sig)
  end.

(** [Parser.ParseUnverified] *)
Definition ParseUnverified (tokenString : TokenString C) : option (Token C) * option error :=
  match tokenString with
  | Malformed _ =>
      (None, Some (newError "token contains an invalid number of segments"
                            ErrTokenMalformed []))
  | Compact alg claims sig =>
      let token := mkToken tokenString None alg claims sig false in
      match alg with
      | Some method =>
          match GetSigningMethod method with
          | Some m => (Some (mkToken tokenString (Some m) alg claims sig false), None)
          | None =>
              (Some token,
               Some (newError "signing method (alg) is unavailable" ErrTokenUnverifiable []))
          end
      | None =>
          (Some token,
           Some (newError "signing method (alg) is unspecified" ErrTokenUnverifiable []))
      end
  end.

(** [Validator.Validate] with the default options: no leeway, [exp] and
    [nbf] checked when present, [iat] not checked, nothing expected of
    the audience, issuer or subject. *)
Definition verifyExpiresAt (claims : C) (cmp : time.Time) : option error :=
  match GetExpirationTime claims with
  | None => None
  | Some exp => if time.Before cmp (dateTime exp) then None else Some ErrTokenExpired
  end.

Definition verifyNotBefore (claims : C) (cmp : time.Time) : option error :=
  match GetNotBefore claims with
  | None => None
  | Some nbf => if negb (time.Before cmp (dateTime nbf)) then None
                else Some ErrTokenNotValidYet
  end.

Definition Validate (now : time.Time) (claims : C) : option error :=
  let errs := option_list (verifyExpiresAt claims now)
              ++ option_list (verifyNotBefore claims now) in
  match errs with
  | [] => None
  | _ => Some (joinedError errs)
  end.

(** [ParseWithClaims(tokenString, claims, keyFunc)], with [now] the
    reading of the clock the validator takes. *)
Definition ParseWithClaims (now : time.Time) (tokenString : TokenString C)
           (keyFunc : Token C -> result (list byte))
  : option (Token C) * option error :=
  match ParseUnverified tokenString with
  | (token, Some err) => (token, Some err)
  | (None, None) => (None, Some ErrTokenMalformed)
  | (Some token, None) =>
      match keyFunc token with
      | Err err =>
          (Some token,
           Some (newError "error while executing keyfunc" ErrTokenUnverifiable [err]))
      | Ok key =>
          let text := SigningString (HeaderAlg token) (TClaims token) in
          let verr := match Method token with
                      | Some m => Verify m text (Signature token) key
                      | None => Some ErrTokenUnverifiable
                      end in
          match verr with
          | Some err => (Some token, Some (newError "" ErrTokenSignatureInvalid [err]))
          | None =>
              (* Validate Claims *)
              match Validate now (TClaims token) with
              | Some err => (Some token, Some (newError "" ErrTokenInvalidClaims [err]))
              | None =>
                  (* No errors so far, token is valid. *)
                  (Some (mkToken (Raw token) (Method token) (HeaderAlg token)
                                 (TClaims token) (Signature token) true), None)
              end
          end
      end
  end.
End Codec.

End jwt.

(** ** Services ([internal/application/services]) *)

Module services.
Import Bytes Encoding repositories.

Module RoleProfile.
Record t := mk {
  ID : uuid.UUID;
  Name : string;
  Description : string;
  Claims : claimsMap
}.
End RoleProfile.

Module DomainProfile.
Record t := mk {
  ID : uuid.UUID;
  Name : string;
  Description : string
}.
End DomainProfile.

Module UserProfile.
Record t := mk {
  ID : uuid.UUID;
  Username : string;
  Email : string;
  FirstName : string;
  LastName : string;
  Role : RoleProfile.t;
  Domain : DomainProfile.t
}.
End UserProfile.

Record TokenClaims := mkTokenClaims {
  UserID : uuid.UUID;
  DomainID : uuid.UUID;
  Username : string;
  RoleID : uuid.UUID;
  Registered : jwt.RegisteredClaims
}.

#[export] Instance TokenClaims_Claims : jwt.Claims TokenClaims := {|
  jwt.GetExpirationTime c := jwt.ExpiresAt (Registered c);
  jwt.GetNotBefore c := jwt.NotBefore (Registered c);
  jwt.GetIssuedAt c := jwt.IssuedAt (Registered c);
  jwt.jsonMembers c :=
    [("user_id", jsonString (uuid.String (UserID c)));
     ("domain_id", jsonString (uuid.String (DomainID c)));
     ("username", jsonString (Username c));
     ("role_id", jsonString (uuid.String (RoleID c)))]
    ++ jwt.registeredMembers (Registered c)
|}.

Record LoginResponse := mkLoginResponse {
  AccessToken : jwt.TokenString TokenClaims;
  User : UserProfile.t
}.

(** *** auth_service.go *)

Record authService (S : Type) := mkAuthService {
  userRepo : UserRepository.t S;
  roleRepo : RoleRepository.t S;
  domainRepo : DomainRepository.t S;
  jwtSecret : list byte;
  tokenExpiry : time.Duration
}.
Arguments mkAuthService {S}.
Arguments userRepo {S}.
Arguments roleRepo {S}.
Arguments domainRepo {S}.
Arguments jwtSecret {S}.
Arguments tokenExpiry {S}.

Section AuthService.
Context {S : Type}.

Definition NewAuthService (userRepo : UserRepository.t S) (roleRepo : RoleRepository.t S)
           (domainRepo : DomainRepository.t S) (jwtSecret : string) : authService S :=
  mkAuthService userRepo roleRepo domainRepo (of_string jwtSecret) (24 * time.Hour).

Variable s : authService S.

Definition verifyPassword (hashedPassword password : string) : bool :=
  let hash := Sha2.Sum256 (of_string password) in
  String.eqb (Sprintf_x hash) hashedPassword.

(** [tExp], [tIat] and [tNbf] are the three readings of [time.Now()],
    in the order the struct literal takes them. *)
Definition generateToken (user : User.t) (tExp tIat tNbf : time.Time)
  : result (jwt.TokenString TokenClaims) :=
  let claims :=
    mkTokenClaims (User.ID user) (User.DomainID user) (User.Username user) (User.RoleID user)
      (jwt.mkRegisteredClaims
         "nusarithm-iam"                                         (* Issuer *)
         (uuid.String (User.ID user))                             (* Subject *)
         []                                                       (* Audience *)
         (Some (jwt.NewNumericDate (time.Add tExp (tokenExpiry s))))  (* ExpiresAt *)
         (Some (jwt.NewNumericDate tNbf))                         (* NotBefore *)
         (Some (jwt.NewNumericDate tIat))                         (* IssuedAt *)
         "") in
  jwt.SignedString jwt.SigningMethodHS256 claims (jwtSecret s).

Definition buildUserProfile (user : User.t) (st : S) : result UserProfile.t :=
  (* Get role information *)
  match RoleRepository.GetByID (roleRepo s) (User.RoleID user) st with
  | Err err => Err (fmt.Errorf_w "failed to get role: " err)
  | Ok role =>
      (* Get domain information *)
      match DomainRepository.GetByID (domainRepo s) (User.DomainID user) st with
      | Err err => Err (fmt.Errorf_w "failed to get domain: " err)
      | Ok domain =>
          Ok (UserProfile.mk
                (User.ID user) (User.Username user) (User.Email user)
                (User.FirstName user) (User.LastName user)
                (RoleProfile.mk
                   (Role.ID role)
                   (Role.RoleName role)
                   ""                      (* Role doesn't have description field *)
                   (Role.RoleClaims role))
                (DomainProfile.mk
                   (Domain.DomainID domain)
                   (Domain.Name domain)
                   (Domain.Domain domain))) (* Using domain field as description *)
      end
  end.

Definition Login (domainID : uuid.UUID) (username password : string)
           (tExp tIat tNbf : time.Time) (st : S) : result LoginResponse :=
  (* Find user by username *)
  match UserRepository.GetByUsername (userRepo s) username st with
  | Err _ => Err (fmt.Errorf "invalid credentials")
  | Ok user =>
      (* Check if user belongs to the specified domain *)
      if negb (uuid.eqb (User.DomainID user) domainID) then
        Err (fmt.Errorf "invalid credentials")
      (* Verify password *)
      else if negb (verifyPassword (User.PasswordHash user) password) then
        Err (fmt.Errorf "invalid credentials")
      else
        (* Generate JWT token *)
        match generateToken user tExp tIat tNbf with
        | Err err => Err (fmt.Errorf_w "failed to generate token: " err)
        | Ok token =>
            (* Get user profile with role and domain *)
            match buildUserProfile user st with
            | Err err => Err (fmt.Errorf_w "failed to build user profile: " err)
            | Ok userProfile => Ok (mkLoginResponse token userProfile)
            end
        end
  end.

(** The key function handed to the parser. *)
Definition keyFunc (token : jwt.Token TokenClaims) : result (list byte) :=
  match jwt.Method token with
  | Some (jwt.SigningMethodHMAC _) => Ok (jwtSecret s)
  | _ =>
      Err (fmt.Errorf_v "unexpected signing method: "
                        (match jwt.HeaderAlg token with Some a => a | None => "<nil>" end))
  end.

Definition ValidateToken (tokenString : jwt.TokenString TokenClaims) (now : time.Time)
  : result TokenClaims :=
  match jwt.ParseWithClaims now tokenString keyFunc with
  | (_, Some err) => Err (fmt.Errorf_w "invalid token: " err)
  | (Some token, None) =>
      if jwt.Valid token then Ok (jwt.TClaims token)
      else Err (fmt.Errorf "invalid token claims")
  | (None, None) => Err (fmt.Errorf "invalid token claims")
  end.

Definition GetProfile (userID : uuid.UUID) (st : S) : result UserProfile.t :=
  match UserRepository.GetByID (userRepo s) userID st with
  | Err _ => Err (fmt.Errorf "user not found")
  | Ok user => buildUserProfile user st
  end.
End AuthService.

(** *** user_service.go *)

Record userService (S : Type) := mkUserService { userService_repo : UserRepository.t S }.
Arguments mkUserService {S}.
Arguments userService_repo {S}.

Definition hashPassword (password : string) : string :=
  let hash := Sha2.Sum256 (of_string password) in
  Sprintf_x hash.

Definition VerifyPassword (hashedPassword password : string) : bool :=
  String.eqb (hashPassword password) hashedPassword.

Definition ListUsersWithPagination {S} (s : userService S) (search : string)
           (domainID : uuid.UUID) (page limit : Z) (st : S)
  : exec (result (ListResult User.t)) :=
  (* Set default values *)
  let page := if page <=? 0 then 1 else page in
  let limit := if (limit <=? 0) || (100 <? limit) then 10 else limit in
  UserRepository.ListWithPagination (userService_repo s) search domainID page limit st.

(** *** domain_service.go *)

Record domainService (S : Type) := mkDomainService { domainService_repo : DomainRepository.t S }.
Arguments mkDomainService {S}.
Arguments domainService_repo {S}.

Definition ListDomainsWithPagination {S} (s : domainService S) (search : string)
           (page limit : Z) (st : S) : exec (result (ListResult Domain.t)) :=
  (* Set default values *)
  let page := if page <=? 0 then 1 else page in
  let limit := if (limit <=? 0) || (100 <? limit) then 10 else limit in
  DomainRepository.ListWithPagination (domainService_repo s) search page limit st.

(** *** role_service.go *)

Record roleService (S : Type) := mkRoleService { roleService_repo : RoleRepository.t S }.
Arguments mkRoleService {S}.
Arguments roleService_repo {S}.

Section RoleService.
Context {S : Type}.
Variable s : roleService S.

Definition CreateRole (domainID : uuid.UUID) (roleName : string) (roleClaims : claimsMap)
           (st : S) : result Role.t * S :=
  let roleClaims := match roleClaims with None => make_map | Some _ => roleClaims end in
  let role := Role.mk uuid.Nil domainID roleName roleClaims time.Zero time.Zero in
  match RoleRepository.Create (roleService_repo s) role st with
  | (Some err, _, st') => (Err err, st')
  | (None, role, st') => (Ok role, st')
  end.

Definition UpdateRole (id : uuid.UUID) (roleName : string) (roleClaims : claimsMap)
           (st : S) : result Role.t * S :=
  let roleClaims := match roleClaims with None => make_map | Some _ => roleClaims end in
  let role := Role.mk id uuid.Nil roleName roleClaims time.Zero time.Zero in
  match RoleRepository.Update (roleService_repo s) role st with
  | (Some err, _, st') => (Err err, st')
  | (None, role, st') => (Ok role, st')
  end.

Definition ListRolesWithPagination (search : string) (domainID : uuid.UUID)
           (page limit : Z) (st : S) : exec (result (ListResult Role.t)) :=
  (* Set default values *)
  let page := if page <=? 0 then 1 else page in
  let limit := if (limit <=? 0) || (100 <? limit) then 10 else limit in
  RoleRepository.ListWithPagination (roleService_repo s) search domainID page limit st.
End RoleService.

End services.

(** ** HTTP handlers ([internal/presentation/handlers]) *)

Module handlers.
Import services.

(** The value of the [Authorization] header: empty, the prefix ["Bearer "]
    followed by a token string, or some other non-empty text. *)
Inductive AuthorizationHeader : Type :=
| NoAuthorization
| Bearer (tokenString : jwt.TokenString TokenClaims)
| NotBearer (value : string).

(** The JSON bodies [c.JSON] is given. *)
Inductive Body : Type :=
| ErrorBody (message : string)                (* gin.H{"error": message} *)
| ValidBody (claims : TokenClaims).           (* gin.H{"valid": true, "claims": claims} *)

Record Response := mkResponse { Status : Z; JSON : Body }.

Definition StatusOK : Z := 200.
Definition StatusUnauthorized : Z := 401.

Definition AuthHandler_ValidateToken {S} (authService : authService S)
           (authHeader : AuthorizationHeader) (now : time.Time) : Response :=
  match authHeader with
  | NoAuthorization =>
      mkResponse StatusUnauthorized (ErrorBody "Authorization header is required")
  | NotBearer _ =>
      mkResponse StatusUnauthorized (ErrorBody "Invalid authorization header format")
  | Bearer tokenString =>
      match ValidateToken authService tokenString now with
      | Err _ => mkResponse StatusUnauthorized (ErrorBody "Invalid or expired token")
      | Ok claims => mkResponse StatusOK (ValidBody claims)
      end
  end.

End handlers.

(** ** A directory held in memory

    A backend whose state is three tables kept as lists, used to run the
    services on concrete data.  Pattern search is plain case-insensitive
    substring search and rows keep their insertion order. *)

Module memdb.
Import repositories Encoding services.

Record State := mkState {
  users : list User.t;
  roles : list Role.t;
  domains : list Domain.t;
  nextID : N
}.

Definition ErrNoRows : error := errors.New "sql: no rows in result set".

Definition lower (c : ascii) : ascii :=
  let z := code c in if (65 <=? z) && (z <=? 90) then char_of (z + 32) else c.

Fixpoint isPrefix (p l : list ascii) : bool :=
  match p, l with
  | [], _ => true
  | a :: p', b :: l' => Ascii.eqb (lower a) (lower b) && isPrefix p' l'
  | _ :: _, [] => false
  end.

Fixpoint containsChars (p l : list ascii) : bool :=
  isPrefix p l || match l with [] => false | _ :: l' => containsChars p l' end.

Definition ilike (value search : string) : bool := containsChars (chars search) (chars value).

Definition first {A} (p : A -> bool) (rows : list A) : result A :=
  match List.find p rows with
  | Some a => Ok a
  | None => Err ErrNoRows
  end.

Definition page {A} (rows : list A) (limit offset : Z) : result (list A) :=
  if limit <? 0 then Err (errors.New "pq: LIMIT must not be negative")
  else if offset <? 0 then Err (errors.New "pq: OFFSET must not be negative")
  else Ok (firstn (Z.to_nat limit) (skipn (Z.to_nat offset) rows)).

Definition usersMatching (domainID : uuid.UUID) (search : string) (st : State) : list User.t :=
  List.filter (fun u => uuid.eqb (User.DomainID u) domainID
                        && (ilike (User.Username u) search || ilike (User.Email u) search
                            || ilike (User.FirstName u) search
                            || ilike (User.LastName u) search))
              (users st).

Definition rolesMatching (domainID : uuid.UUID) (search : string) (st : State) : list Role.t :=
  List.filter (fun r => uuid.eqb (Role.DomainID r) domainID && ilike (Role.RoleName r) search)
              (roles st).

Definition domainsMatching (search : string) (st : State) : list Domain.t :=
  List.filter (fun d => ilike (Domain.Name d) search || ilike (Domain.Domain d) search)
              (domains st).

Definition insertRole (role : Role.t) (st : State) : result uuid.UUID * State :=
  if existsb (fun r => uuid.eqb (Role.DomainID r) (Role.DomainID role)
                       && String.eqb (Role.RoleName r) (Role.RoleName role)) (roles st)
  then (Err (errors.New "pq: duplicate key value violates unique constraint"), st)
  else (Ok (Role.ID role),
        mkState (users st) (roles st ++ [role]) (domains st) (nextID st)).

Definition updateRole (role : Role.t) (st : State) : option error * State :=
  (None,
   mkState (users st)
           (List.map (fun r => if uuid.eqb (Role.ID r) (Role.ID role)
                               then Role.mk (Role.ID r) (Role.DomainID r) (Role.RoleName role)
                                            (Role.RoleClaims role) (Role.CreatedAt r)
                                            (Role.UpdatedAt r)
                               else r) (roles st))
           (domains st) (nextID st)).

Definition backend : Backend State :=
  mkBackend State
    (fun id st => first (fun u => uuid.eqb (User.ID u) id) (users st))
    (fun name st => first (fun u => String.eqb (User.Username u) name) (users st))
    (fun d q st => Ok (Z.of_nat (List.length (usersMatching d q st))))
    (fun d q l o st => page (usersMatching d q st) l o)
    (fun id st => first (fun r => uuid.eqb (Role.ID r) id) (roles st))
    insertRole
    updateRole
    (fun d q st => Ok (Z.of_nat (List.length (rolesMatching d q st))))
    (fun d q l o st => page (rolesMatching d q st) l o)
    (fun id st => first (fun d => uuid.eqb (Domain.DomainID d) id) (domains st))
    (fun q st => Ok (Z.of_nat (List.length (domainsMatching q st))))
    (fun q l o st => page (domainsMatching q st) l o)
    (fun st => (nextID st, mkState (users st) (roles st) (domains st) (nextID st + 1)%N)).

(** The wiring of [routes.SetupRouter]. *)
Definition authService : services.authService State :=
  services.NewAuthService (NewUserRepository backend) (NewRoleRepository backend)
                          (NewDomainRepository backend) "your-secret-key".

(** The scenario of the specification: domain D (key "acme"), role R
    ("admin", no claims), user U ("alice", password "s3cret!"). *)
Definition D : Domain.t := Domain.mk 0xd0%N "Acme Corp" "acme".
Definition otherDomain : Domain.t := Domain.mk 0xd1%N "Other" "other".
Definition R : Role.t := Role.mk 0xa0%N 0xd0%N "admin" make_map 0 0.
Definition U : User.t :=
  User.mk 0x01%N 0xd0%N 0xa0%N "Alice" "Liddell" "alice" "alice@acme.test"
          (services.hashPassword "s3cret!") 0 0.
Definition scenario : State := mkState [U] [R] [D; otherDomain] 0x100%N.

(** An instant of the clock: 2023-11-14 22:13:20.123456789 UTC. *)
Definition t0 : time.Time := 1700000000 * time.Second + 123456789.
Definition oneDay : time.Duration := 24 * time.Hour.

(** Claims for alice with the given expiry and not-before dates. *)
Definition claimsFor (exp nbf : option jwt.NumericDate) : services.TokenClaims :=
  services.mkTokenClaims (User.ID U) (User.DomainID U) (User.Username U) (User.RoleID U)
    (jwt.mkRegisteredClaims "nusarithm-iam" (uuid.String (User.ID U)) []
                            exp nbf (Some 1700000000) "").

(** The claims [Login] issues for alice at [t0]. *)
Definition aliceClaims : services.TokenClaims :=
  claimsFor (Some 1700086400) (Some 1700000000).

(** A token string for the claims, signed with the method under the key. *)
Definition signed (m : jwt.SigningMethod) (key : string) (claims : services.TokenClaims)
  : jwt.TokenString services.TokenClaims :=
  match jwt.SignedString m claims (Bytes.of_string key) with
  | Ok token => token
  | Err _ => jwt.Malformed ""
  end.

Definition serverSecret : string := "your-secret-key".


Definition aliceToken := signed jwt.SigningMethodHS256 serverSecret aliceClaims.
Definition forgedToken := signed jwt.SigningMethodHS256 "attacker-key" aliceClaims.
Definition noExpiryToken := signed jwt.SigningMethodHS256 serverSecret (claimsFor None None).
Definition noneToken : jwt.TokenString services.TokenClaims :=
  jwt.Compact (Some "none") aliceClaims [].

(** The error of a validation, [nil] rendered as an empty error. *)
Definition errorOf (r : result services.TokenClaims) : error :=
  match r with Ok _ => errorString "" | Err err => err end.

(** What the service returns for alice's token a day and an hour after its
    issue, and for the token signed with the attacker's key. *)
Definition expiredError : error :=
  Eval vm_compute in
    errorOf (services.ValidateToken authService aliceToken (t0 + oneDay + time.Hour)).
Definition forgedError : error :=
  Eval vm_compute in
    errorOf (services.ValidateToken authService forgedToken (t0 + time.Hour)).

End memdb.

(** ** Vocabulary of the statements *)

Module Spec.
Import services repositories.

(** The error every credential failure of [Login] returns. *)
Definition InvalidCredentials : error := fmt.Errorf "invalid credentials".

(** The three ways a login can be refused. *)
Inductive FailureCause : Type := UnknownUser | WrongDomain | WrongPassword.

(** A run of [Login] on state [st] meets the cause [c]. *)
Definition failsBy {S} (c : FailureCause) (s : authService S)
           (domainID : uuid.UUID) (username password : string) (st : S) : Prop :=
  match c with
  | UnknownUser =>
      exists err, UserRepository.GetByUsername (userRepo s) username st = Err err
  | WrongDomain =>
      exists user, UserRepository.GetByUsername (userRepo s) username st = Ok user
                   /\ User.DomainID user <> domainID
  | WrongPassword =>
      exists user, UserRepository.GetByUsername (userRepo s) username st = Ok user
                   /\ User.DomainID user = domainID
                   /\ verifyPassword (User.PasswordHash user) password = false
  end.

(** The profile [buildUserProfile] assembles from the three records. *)
Definition profileOf (user : User.t) (role : Role.t) (domain : Domain.t) : UserProfile.t :=
  UserProfile.mk (User.ID user) (User.Username user) (User.Email user)
                 (User.FirstName user) (User.LastName user)
                 (RoleProfile.mk (Role.ID role) (Role.RoleName role) "" (Role.RoleClaims role))
                 (DomainProfile.mk (Domain.DomainID domain) (Domain.Name domain)
                                   (Domain.Domain domain)).

(** The claims [generateToken] writes for a user, from the three readings
    of the clock. *)
Definition issuedClaims {S} (s : authService S) (user : User.t)
           (tExp tIat tNbf : time.Time) : TokenClaims :=
  mkTokenClaims (User.ID user) (User.DomainID user) (User.Username user) (User.RoleID user)
    (jwt.mkRegisteredClaims "nusarithm-iam" (uuid.String (User.ID user)) []
       (Some (jwt.NewNumericDate (time.Add tExp (tokenExpiry s))))
       (Some (jwt.NewNumericDate tNbf))
       (Some (jwt.NewNumericDate tIat))
       "").

(** The MAC of the claims under the server's secret, for an HMAC method. *)
Definition serverMAC {S} (s : authService S) (h : jwt.HashFunc) (claims : TokenClaims)
  : list byte :=
  Hmac.Sum (jwt.hashParams h) (jwtSecret s)
           (Bytes.of_string
              (jwt.SigningString (Some (jwt.Alg (jwt.SigningMethodHMAC h))) claims)).

(** The temporal checks of the validator on the claims at instant [now]:
    strictly before the expiry when there is one, not before the
    not-before date when there is one. *)
Definition inValidity (now : time.Time) (claims : TokenClaims) : Prop :=
  (forall exp, jwt.ExpiresAt (Registered claims) = Some exp -> now < time.Unix exp)
  /\ (forall nbf, jwt.NotBefore (Registered claims) = Some nbf -> time.Unix nbf <= now).

(** The claims map a role service hands on: the nil map becomes an empty one. *)
Definition nonNil (roleClaims : claimsMap) : claimsMap :=
  match roleClaims with None => make_map | Some _ => roleClaims end.

(** Normalised pagination arguments. *)
Definition normPage (page : Z) : Z := if page <=? 0 then 1 else page.
Definition normLimit (limit : Z) : Z := if (limit <=? 0) || (100 <? limit) then 10 else limit.

(** Ceiling of [a / b] for a positive [b]. *)
Definition ceilDiv (a b : Z) : Z := - ((- a) / b).

(** What a paginated list call returns, given the database's answer
    [count] to the count statement and its answer [rows limit offset] to
    the page statement: the arguments are normalised, the page statement
    is bound to the normalised limit and to the offset computed in 64-bit
    arithmetic, and the result echoes the normalised page and limit. *)
Definition paginated {Row} (count : result Z) (rows : Z -> Z -> result (list Row))
           (page limit : Z) (out : exec (result (ListResult Row))) : Prop :=
  let page' := normPage page in
  let limit' := normLimit limit in
  let offset := int.wrap ((page' - 1) * limit') in
  ((page' - 1) * limit' <= int.MaxInt -> offset = (page' - 1) * limit')
  /\ match count with
     | Err err => out = Return (Err err)
     | Ok total =>
         match rows limit' offset with
         | Err err => out = Return (Err err)
         | Ok items =>
             let totalPages := int.wrap (Z.quot (int.wrap (total + limit' - 1)) limit') in
             out = Return (Ok (mkListResult items total page' limit' totalPages))
             /\ (0 <= total <= int.MaxInt - limit' + 1 -> totalPages = ceilDiv total limit')
         end
     end.

End Spec.

(** ** [strings] and [strconv] *)

Module strings.

(** [strings.HasPrefix] *)
Fixpoint HasPrefix (s prefix : string) : bool :=
  match prefix, s with
  | EmptyString, _ => true
  | String p prefix', String c s' => Ascii.eqb c p && HasPrefix s' prefix'
  | String _ _, EmptyString => false
  end.

(** [strings.Contains] *)
Fixpoint Contains (s substr : string) : bool :=
  HasPrefix s substr
  || match s with
     | EmptyString => false
     | String _ s' => Contains s' substr
     end.

(** [s[n:]] *)
Fixpoint from (n : nat) (s : string) : string :=
  match n, s with
  | O, _ => s
  | S n', String _ s' => from n' s'
  | S _, EmptyString => EmptyString
  end.

(** [strings.TrimPrefix] *)
Definition TrimPrefix (s prefix : string) : string :=
  if HasPrefix s prefix then from (String.length prefix) s else s.

End strings.

Module strconv.
Import Encoding.

Inductive NumError : Type := ErrSyntax | ErrRange.

Definition maxUint64 : Z := 2 ^ 64 - 1.

(** The digit loop of [ParseUint(s, 10, 64)]: a byte that is no decimal
    digit is a syntax error; a value that leaves 64 bits is a range error,
    reported as soon as it is met. *)
Fixpoint parseUint (l : list ascii) (n : Z) : Z * option NumError :=
  match l with
  | [] => (n, None)
  | c :: l' =>
      let d := code c - 48 in
      if negb ((0 <=? d) && (d <=? 9)) then (0, Some ErrSyntax)
      else if maxUint64 / 10 + 1 <=? n then (maxUint64, Some ErrRange)
      else if maxUint64 <? n * 10 + d then (maxUint64, Some ErrRange)
      else parseUint l' (n * 10 + d)
  end.

(** [strconv.Atoi] on a 64-bit platform (its fast path for short strings
    computes the same): an optional sign, then at least one digit. *)
Definition Atoi (s : string) : Z * option NumError :=
  match chars s with
  | [] => (0, Some ErrSyntax)
  | c :: rest =>
      let neg := Ascii.eqb c "-" in
      let digits := if neg || Ascii.eqb c "+" then rest else c :: rest in
      match digits with
      | [] => (0, Some ErrSyntax)
      | _ =>
          match parseUint digits 0 with
          | (_, Some ErrSyntax) => (0, Some ErrSyntax)
          | (un, _) =>
              if negb neg && (2 ^ 63 <=? un) then (int.MaxInt, Some ErrRange)
              else if neg && (2 ^ 63 <? un) then (int.MinInt, Some ErrRange)
              else (if neg then - un else un, None)
          end
      end
  end.

End strconv.

(** ** Database configuration ([internal/infrastructure/config]) *)

Module config.

(** The process environment: [os.Getenv], the empty string for a variable
    that is not set. *)
Definition Environ : Type := string -> string.

Record DatabaseConfig := mkDatabaseConfig {
  Host : string;
  Port : string;
  User : string;
  Password : string;
  DBName : string;
  SSLMode : string
}.

Definition getEnv (env : Environ) (key defaultVal : string) : string :=
  let value := env key in
  if negb (String.eqb value "") then value else defaultVal.

Definition NewDatabaseConfig (env : Environ) : DatabaseConfig :=
  mkDatabaseConfig
    (getEnv env "DB_HOST" "localhost")
    (getEnv env "DB_PORT" "5432")
    (getEnv env "DB_USER" "postgres")
    (getEnv env "DB_PASSWORD" "")
    (getEnv env "DB_NAME" "mydb")
    (getEnv env "DB_SSLMODE" "disable").

Definition ConnectionString (c : DatabaseConfig) : string :=
  "host=" +:+ Host c +:+ " port=" +:+ Port c +:+ " user=" +:+ User c
  +:+ " password=" +:+ Password c +:+ " dbname=" +:+ DBName c
  +:+ " sslmode=" +:+ SSLMode c.

End config.

(** ** The write side of the user repository and service *)

Module userwrites.
Import repositories services.

(** The answers of the database to the statements that write users. *)
Record UserStatements (S : Type) := mkUserStatements {
  insertUser : User.t -> S -> result uuid.UUID * S;
  updateUser : User.t -> S -> option error * S;
  updateUserPassword : uuid.UUID -> string -> S -> option error * S
}.
Arguments insertUser {S}.
Arguments updateUser {S}.
Arguments updateUserPassword {S}.

(** The repository interface with its writing methods. *)
Record UserRepositoryRW (S : Type) := mkUserRepositoryRW {
  reads : UserRepository.t S;
  Create : User.t -> S -> option error * User.t * S;
  Update : User.t -> S -> option error * User.t * S;
  UpdatePassword : uuid.UUID -> string -> S -> option error * S
}.
Arguments reads {S}.
Arguments Create {S}.
Arguments Update {S}.
Arguments UpdatePassword {S}.

Definition setUserID (id : uuid.UUID) (user : User.t) : User.t :=
  User.mk id (User.DomainID user) (User.RoleID user) (User.FirstName user)
          (User.LastName user) (User.Username user) (User.Email user)
          (User.PasswordHash user) (User.CreatedAt user) (User.UpdatedAt user).

Section Repository.
Context {S : Type}.
Variable db : Backend S.
Variable stmts : UserStatements S.

Definition userRepository_Create (user : User.t) (st : S) : option error * User.t * S :=
  let '(id, st) := uuid_New db st in
  let user := setUserID id user in
  match insertUser stmts user st with
  | (Err err, st) => (Some err, user, st)
  | (Ok id, st) => (None, setUserID id user, st)
  end.

Definition userRepository_Update (user : User.t) (st : S) : option error * User.t * S :=
  let '(err, st) := updateUser stmts user st in (err, user, st).

Definition userRepository_UpdatePassword (id : uuid.UUID) (hashedPassword : string) (st : S)
  : option error * S :=
  updateUserPassword stmts id hashedPassword st.

Definition NewUserRepositoryRW : UserRepositoryRW S :=
  mkUserRepositoryRW S (NewUserRepository db) userRepository_Create userRepository_Update
                     userRepository_UpdatePassword.
End Repository.

Section Service.
Context {S : Type}.
Variable repo : UserRepositoryRW S.

Definition CreateUser (domainID roleID : uuid.UUID)
           (firstName lastName username email password : string) (st : S)
  : result User.t * S :=
  (* Hash the password *)
  let hashedPassword := hashPassword password in
  let user := User.mk uuid.Nil domainID roleID firstName lastName username email
                      hashedPassword time.Zero time.Zero in
  match Create repo user st with
  | (Some err, _, st') => (Err err, st')
  | (None, user, st') => (Ok user, st')
  end.

Definition UpdateUser (id : uuid.UUID) (firstName lastName username email : string)
           (roleID : uuid.UUID) (st : S) : result User.t * S :=
  let user := User.mk id uuid.Nil roleID firstName lastName username email
                      "" time.Zero time.Zero in
  match Update repo user st with
  | (Some err, _, st') => (Err err, st')
  | (None, user, st') => (Ok user, st')
  end.

Definition ResetUserPassword (id : uuid.UUID) (newPassword : string) (st : S)
  : option error * S :=
  (* Hash the new password *)
  let hashedPassword := hashPassword newPassword in
  (* Update the user's password hash *)
  UpdatePassword repo id hashedPassword st.
End Service.

End userwrites.

(** ** The other HTTP handlers *)

Module api.
Import repositories services.

(** What [c.JSON] is given: a status with a body, or a status with
    [gin.H{"error": message}]. *)
Inductive Answer (A : Type) : Type :=
| JSON (status : Z) (body : A)
| JSONError (status : Z) (message : string).
Arguments JSON {A}.
Arguments JSONError {A}.

Definition StatusOK : Z := 200.
Definition StatusBadRequest : Z := 400.
Definition StatusUnauthorized : Z := 401.
Definition StatusInternalServerError : Z := 500.

(** A non-empty text given as an id, by what [uuid.Parse] makes of it. *)
Inductive UUIDText : Type :=
| ValidUUID (id : uuid.UUID)
| InvalidUUID (text : string).

(** The outcome of [c.ShouldBindJSON(&req)]. *)
Inductive Bind (A : Type) : Type :=
| Bound (req : A)
| BindError (message : string).
Arguments Bound {A}.
Arguments BindError {A}.

Record LoginRequest := mkLoginRequest { Username : string; Password : string }.

Module AuthResponse.
Module Role.
Record t := mk { ID : string; Name : string; Description : string; Claims : claimsMap }.
End Role.
Module Domain.
Record t := mk { ID : string; Name : string; Description : string }.
End Domain.
Module User.
Record t := mk {
  ID : string;
  Username : string;
  Email : string;
  FirstName : string;
  LastName : string;
  Role : Role.t;
  Domain : Domain.t
}.
End User.
Record t := mk { Token : jwt.TokenString TokenClaims; User : User.t }.
End AuthResponse.

(** The reading of the [Authorization] header that opens
    [AuthHandler.ValidateToken] and [AuthHandler.GetProfile]: the header is
    refused when it is empty, and when trimming the prefix leaves it as it
    was; otherwise the rest is the token string. *)
Inductive Authorization : Type :=
| Required                         (* 401 "Authorization header is required" *)
| InvalidFormat                    (* 401 "Invalid authorization header format" *)
| TokenString (tokenString : string).

Definition authorization (authHeader : string) : Authorization :=
  if String.eqb authHeader "" then Required
  else
    let tokenString := strings.TrimPrefix authHeader "Bearer " in
    if String.eqb tokenString authHeader then InvalidFormat
    else TokenString tokenString.

Section AuthHandler.
Context {S : Type}.
Variable authService : authService S.

(** [domainIdStr] is the [X-NRM-DID] header: [None] when it is empty. *)
Definition AuthHandler_Login (domainIdStr : option UUIDText) (body : Bind LoginRequest)
           (tExp tIat tNbf : time.Time) (st : S) : Answer AuthResponse.t :=
  match domainIdStr with
  | None => JSONError StatusBadRequest "X-NRM-DID header is required"
  | Some (InvalidUUID _) =>
      JSONError StatusBadRequest "Invalid domain UUID in X-NRM-DID header"
  | Some (ValidUUID domainID) =>
      match body with
      | BindError message => JSONError StatusBadRequest message
      | Bound req =>
          match Login authService domainID (Username req) (Password req)
                      tExp tIat tNbf st with
          | Err err =>
              if strings.Contains (Error err) "invalid credentials"
              then JSONError StatusUnauthorized "Invalid username or password"
              else JSONError StatusInternalServerError "Login failed"
          | Ok loginResp =>
              let user := services.User loginResp in
              JSON StatusOK
                (AuthResponse.mk
                   (AccessToken loginResp)
                   (AuthResponse.User.mk
                      (uuid.String (UserProfile.ID user))
                      (UserProfile.Username user)
                      (UserProfile.Email user)
                      (UserProfile.FirstName user)
                      (UserProfile.LastName user)
                      (AuthResponse.Role.mk
                         (uuid.String (RoleProfile.ID (UserProfile.Role user)))
                         (RoleProfile.Name (UserProfile.Role user))
                         (RoleProfile.Description (UserProfile.Role user))
                         (RoleProfile.Claims (UserProfile.Role user)))
                      (AuthResponse.Domain.mk
                         (uuid.String (DomainProfile.ID (UserProfile.Domain user)))
                         (DomainProfile.Name (UserProfile.Domain user))
                         (DomainProfile.Description (UserProfile.Domain user)))))
          end
      end
  end.

(** The body is the map of the profile's fields. *)
Definition AuthHandler_GetProfile (authHeader : handlers.AuthorizationHeader)
           (now : time.Time) (st : S) : Answer UserProfile.t :=
  match authHeader with
  | handlers.NoAuthorization =>
      JSONError StatusUnauthorized "Authorization header is required"
  | handlers.NotBearer _ =>
      JSONError StatusUnauthorized "Invalid authorization header format"
  | handlers.Bearer tokenString =>
      (* Validate token and get claims *)
      match ValidateToken authService tokenString now with
      | Err _ => JSONError StatusUnauthorized "Invalid or expired token"
      | Ok claims =>
          (* Get user profile using user ID from token *)
          match GetProfile authService (UserID claims) st with
          | Err _ => JSONError StatusUnauthorized "User not found"
          | Ok user => JSON StatusOK user
          end
      end
  end.
End AuthHandler.

(** The query parameters [page] and [limit] as the list handlers read
    them: [None] is a parameter that is absent, for which [c.DefaultQuery]
    gives the default text. *)
Definition DefaultQuery (param : option string) (defaultValue : string) : string :=
  match param with Some value => value | None => defaultValue end.

Definition pageParam (param : option string) : Z :=
  let '(page, err) := strconv.Atoi (DefaultQuery param "1") in
  if (match err with Some _ => true | None => false end) || (page <? 1) then 1 else page.

Definition limitParam (param : option string) : Z :=
  let '(limit, err) := strconv.Atoi (DefaultQuery param "10") in
  if (match err with Some _ => true | None => false end) || (limit <? 1) then 10 else limit.

Section ListHandlers.
Context {S : Type}.

Definition DomainHandler_ListDomains (domainService : domainService S)
           (search page limit : option string) (st : S)
  : exec (Answer (ListResult Domain.t)) :=
  (* Parse query parameters *)
  let search := DefaultQuery search "" in
  let page := pageParam page in
  let limit := limitParam limit in
  match ListDomainsWithPagination domainService search page limit st with
  | Panic msg => Panic msg
  | Return (Err _) => Return (JSONError StatusInternalServerError "Failed to list domains")
  | Return (Ok result) => Return (JSON StatusOK result)
  end.

(** [domainId] is the query parameter of that name: [None] when it is
    absent or empty. *)
Definition UserHandler_ListUsers (userService : userService S)
           (search : option string) (domainId : option UUIDText) (page limit : option string)
           (st : S) : exec (Answer (ListResult User.t)) :=
  let search := DefaultQuery search "" in
  let page := pageParam page in
  let limit := limitParam limit in
  match domainId with
  | Some (InvalidUUID _) => Return (JSONError StatusBadRequest "Invalid domain UUID")
  | _ =>
      let domainID := match domainId with Some (ValidUUID id) => id | _ => uuid.Nil end in
      match ListUsersWithPagination userService search domainID page limit st with
      | Panic msg => Panic msg
      | Return (Err _) => Return (JSONError StatusInternalServerError "Failed to list users")
      | Return (Ok result) => Return (JSON StatusOK result)
      end
  end.

Definition RoleHandler_ListRoles (roleService : roleService S)
           (search : option string) (domainId : option UUIDText) (page limit : option string)
           (st : S) : exec (Answer (ListResult Role.t)) :=
  let search := DefaultQuery search "" in
  let page := pageParam page in
  let limit := limitParam limit in
  match domainId with
  | Some (InvalidUUID _) => Return (JSONError StatusBadRequest "Invalid domain UUID")
  | _ =>
      let domainID := match domainId with Some (ValidUUID id) => id | _ => uuid.Nil end in
      match ListRolesWithPagination roleService search domainID page limit st with
      | Panic msg => Panic msg
      | Return (Err _) => Return (JSONError StatusInternalServerError "Failed to list roles")
      | Return (Ok result) => Return (JSON StatusOK result)
      end
  end.
End ListHandlers.

End api.

(** ** Writes on the directory held in memory *)

Module memdbw.
Import repositories services userwrites.

Definition withUsers (users : list User.t) (st : memdb.State) : memdb.State :=
  memdb.mkState users (memdb.roles st) (memdb.domains st) (memdb.nextID st).

(** INSERT INTO users: the foreign keys and the two unique columns are
    checked; the timestamps take the current instant. *)
Definition insertUser (user : User.t) (st : memdb.State) : result uuid.UUID * memdb.State :=
  if negb (existsb (fun d => uuid.eqb (Domain.DomainID d) (User.DomainID user))
                   (memdb.domains st))
     || negb (existsb (fun r => uuid.eqb (Role.ID r) (User.RoleID user)) (memdb.roles st))
  then (Err (errors.New "pq: insert or update on table violates foreign key constraint"), st)
  else if existsb (fun u => String.eqb (User.Username u) (User.Username user)
                            || String.eqb (User.Email u) (User.Email user))
                  (memdb.users st)
  then (Err (errors.New "pq: duplicate key value violates unique constraint"), st)
  else (Ok (User.ID user),
        withUsers (memdb.users st
                   ++ [User.mk (User.ID user) (User.DomainID user) (User.RoleID user)
                               (User.FirstName user) (User.LastName user)
                               (User.Username user) (User.Email user)
                               (User.PasswordHash user) memdb.t0 memdb.t0]) st).

Definition updateUser (user : User.t) (st : memdb.State) : option error * memdb.State :=
  (None,
   withUsers (List.map (fun u => if uuid.eqb (User.ID u) (User.ID user)
                                 then User.mk (User.ID u) (User.DomainID u) (User.RoleID user)
                                              (User.FirstName user) (User.LastName user)
                                              (User.Username user) (User.Email user)
                                              (User.PasswordHash u) (User.CreatedAt u)
                                              memdb.t0
                                 else u) (memdb.users st)) st).

Definition updateUserPassword (id : uuid.UUID) (hashedPassword : string) (st : memdb.State)
  : option error * memdb.State :=
  (None,
   withUsers (List.map (fun u => if uuid.eqb (User.ID u) id
                                 then User.mk (User.ID u) (User.DomainID u) (User.RoleID u)
                                              (User.FirstName u) (User.LastName u)
                                              (User.Username u) (User.Email u)
                                              hashedPassword (User.CreatedAt u) memdb.t0
                                 else u) (memdb.users st)) st).

Definition statements : UserStatements memdb.State :=
  mkUserStatements memdb.State insertUser updateUser updateUserPassword.

Definition userRepository : UserRepositoryRW memdb.State :=
  NewUserRepositoryRW memdb.backend statements.

(** The scenario after bob was created in alice's domain with her role. *)
Definition withBob : memdb.State :=
  snd (CreateUser userRepository 0xd0%N 0xa0%N "Bob" "Builder" "bob" "bob@acme.test"
                  "hunter22" memdb.scenario).

(** The scenario after alice's password was reset. *)
Definition afterReset : memdb.State :=
  snd (ResetUserPassword userRepository 0x01%N "n3w-s3cret" memdb.scenario).

(** A role repository whose lookups fail with the given error. *)
Definition failingRoles (err : error) : RoleRepository.t memdb.State :=
  RoleRepository.mk memdb.State (fun _ _ => Err err)
    (RoleRepository.Create (NewRoleRepository memdb.backend))
    (RoleRepository.Update (NewRoleRepository memdb.backend))
    (RoleRepository.ListWithPagination (NewRoleRepository memdb.backend)).

Definition authServiceWith (roles : RoleRepository.t memdb.State)
  : services.authService memdb.State :=
  services.NewAuthService (NewUserRepository memdb.backend) roles
                          (NewDomainRepository memdb.backend) "your-secret-key".

End memdbw.

(** ** Vocabulary of the further properties *)

Module Contracts.
Import repositories services.

(** What a list endpoint may answer to a request with the given [page]
    and [limit] texts. *)
Definition listed {Row} (page limit : option string)
           (out : exec (api.Answer (ListResult Row))) : Prop :=
  exists answer,
    out = Return answer
    /\ match answer with
       | api.JSON status result =>
           status = 200
           /\ Page result = api.pageParam page
           /\ Limit result = Spec.normLimit (api.limitParam limit)
           /\ 1 <= Page result <= int.MaxInt
           /\ 1 <= Limit result <= 100
       | api.JSONError status _ => status = 400 \/ status = 500
       end.

(** The rows of a list call; none when it failed. *)
Definition itemsOf {Row} (out : exec (result (ListResult Row))) : list Row :=
  match out with
  | Return (Ok result) => Items result
  | _ => []
  end.


(** The digits of [fmt.Sprintf("%x", ...)]. *)
Definition isLowerHex (c : ascii) : bool :=
  existsb (Ascii.eqb c) (Encoding.chars "0123456789abcdef").

End Contracts.


(** * Properties *)

Import services repositories Spec.

(** Closed goals are settled by evaluation, conjunct by conjunct. *)
Ltac split_all := repeat match goal with |- _ /\ _ => split end.
Ltac by_eval := vm_compute; first [reflexivity | discriminate].

(** ** Basic facts *)

Lemma uuid_eqb_eq (a b : uuid.UUID) : uuid.eqb a b = true <-> a = b.
Proof. apply N.eqb_eq. Qed.

Lemma uuid_eqb_neq (a b : uuid.UUID) : uuid.eqb a b = false <-> a <> b.
Proof. apply N.eqb_neq. Qed.

Lemma bytes_eqb_eq (a b : list byte) : Hmac.bytes_eqb a b = true <-> a = b.
Proof.
  revert b; induction a as [|x a IH]; intros [|y b]; simpl; split; try easy.
  - intros [Hxy Hab]%andb_prop. apply Byte.byte_dec_bl in Hxy. apply IH in Hab. congruence.
  - intros [= -> ->]. apply andb_true_intro; split.
    + now apply Byte.byte_dec_lb.
    + now apply IH.
Qed.

Lemma int_wrap_inRange (z : Z) : int.inRange z -> int.wrap z = z.
Proof.
  unfold int.inRange, int.wrap, int.MinInt, int.MaxInt. intros Hz.
  rewrite Z.mod_small by lia. lia.
Qed.

(** ** Login: refusals *)

Section LoginRefusals.
Context {S : Type} (s : authService S).

Lemma Login_unknown_user domainID username password t1 t2 t3 st err :
  UserRepository.GetByUsername (userRepo s) username st = Err err ->
  Login s domainID username password t1 t2 t3 st = Err InvalidCredentials.
Proof. unfold Login. now intros ->. Qed.

Lemma Login_wrong_domain domainID username password t1 t2 t3 st user :
  UserRepository.GetByUsername (userRepo s) username st = Ok user ->
  User.DomainID user <> domainID ->
  Login s domainID username password t1 t2 t3 st = Err InvalidCredentials.
Proof.
  unfold Login. intros -> Hd. apply uuid_eqb_neq in Hd. now rewrite Hd.
Qed.

Lemma Login_wrong_password domainID username password t1 t2 t3 st user :
  UserRepository.GetByUsername (userRepo s) username st = Ok user ->
  verifyPassword (User.PasswordHash user) password = false ->
  Login s domainID username password t1 t2 t3 st = Err InvalidCredentials.
Proof.
  unfold Login. intros -> Hp. rewrite Hp. now destruct (uuid.eqb _ _).
Qed.

Lemma Login_failsBy c domainID username password t1 t2 t3 st :
  failsBy c s domainID username password st ->
  Login s domainID username password t1 t2 t3 st = Err InvalidCredentials.
Proof.
  destruct c; simpl.
  - intros [err H]. eapply Login_unknown_user; eauto.
  - intros (user & H & Hd). eapply Login_wrong_domain; eauto.
  - intros (user & H & _ & Hp). eapply Login_wrong_password; eauto.
Qed.
End LoginRefusals.

(** C3: a stored user whose domain differs from the requested domain is
    refused with the invalid-credentials error, whatever the password --
    also the right one. *)
Theorem Login_tenant_isolation {S} (s : authService S)
        (domainID : uuid.UUID) (username password : string)
        (tExp tIat tNbf : time.Time) (st : S) (user : User.t) :
  UserRepository.GetByUsername (userRepo s) username st = Ok user ->
  User.DomainID user <> domainID ->
  Login s domainID username password tExp tIat tNbf st = Err InvalidCredentials.
Proof. apply Login_wrong_domain. Qed.

Lemma Login_tenant_isolation_witness :
  verifyPassword (User.PasswordHash memdb.U) "s3cret!" = true
  /\ Login memdb.authService (Domain.DomainID memdb.otherDomain) "alice" "s3cret!"
           1700000000000000000 1700000000000000000 1700000000000000000 memdb.scenario
     = Err (errorString "invalid credentials").
Proof.
  split.
  - vm_compute. reflexivity.
  - apply (Login_tenant_isolation memdb.authService _ "alice" "s3cret!" _ _ _
             memdb.scenario memdb.U).
    + reflexivity.
    + discriminate.
Defined.

(** C4: two refused logins, each by any of the three causes (unknown
    username, other domain, wrong password), return the same error value:
    the result does not tell the causes apart. *)
Theorem Login_failures_indistinguishable {S1 S2}
        (s1 : authService S1) (s2 : authService S2) (c1 c2 : FailureCause)
        (d1 d2 : uuid.UUID) (u1 p1 u2 p2 : string)
        (a1 b1 c1' a2 b2 c2' : time.Time) (st1 : S1) (st2 : S2) :
  failsBy c1 s1 d1 u1 p1 st1 ->
  failsBy c2 s2 d2 u2 p2 st2 ->
  Login s1 d1 u1 p1 a1 b1 c1' st1 = Login s2 d2 u2 p2 a2 b2 c2' st2
  /\ Login s1 d1 u1 p1 a1 b1 c1' st1 = Err (errorString "invalid credentials").
Proof.
  intros H1 H2.
  rewrite (Login_failsBy s1 c1 _ _ _ _ _ _ _ H1), (Login_failsBy s2 c2 _ _ _ _ _ _ _ H2).
  split; reflexivity.
Qed.

Lemma Login_failures_indistinguishable_witness :
  let t := 1700000000000000000 in
  (Login memdb.authService 0xd0%N "bob" "s3cret!" t t t memdb.scenario
   = Login memdb.authService 0xd1%N "alice" "s3cret!" t t t memdb.scenario
   /\ Login memdb.authService 0xd0%N "bob" "s3cret!" t t t memdb.scenario
      = Err (errorString "invalid credentials"))
  /\ (Login memdb.authService 0xd1%N "alice" "s3cret!" t t t memdb.scenario
      = Login memdb.authService 0xd0%N "alice" "wrong" t t t memdb.scenario
      /\ Login memdb.authService 0xd1%N "alice" "s3cret!" t t t memdb.scenario
         = Err (errorString "invalid credentials")).
Proof.
  intros t; split.
  - apply (Login_failures_indistinguishable memdb.authService memdb.authService
             UnknownUser WrongDomain).
    + exists memdb.ErrNoRows. reflexivity.
    + exists memdb.U. split; [reflexivity | discriminate].
  - apply (Login_failures_indistinguishable memdb.authService memdb.authService
             WrongDomain WrongPassword).
    + exists memdb.U. split; [reflexivity | discriminate].
    + exists memdb.U. split; [reflexivity | split; [reflexivity | vm_compute; reflexivity]].
Defined.

(** ** Profiles *)

Section Profiles.
Context {S : Type} (s : authService S).

Lemma buildUserProfile_Ok user st p :
  buildUserProfile s user st = Ok p <->
  exists role domain,
    RoleRepository.GetByID (roleRepo s) (User.RoleID user) st = Ok role
    /\ DomainRepository.GetByID (domainRepo s) (User.DomainID user) st = Ok domain
    /\ p = profileOf user role domain.
Proof.
  unfold buildUserProfile, profileOf. split.
  - destruct (RoleRepository.GetByID _ _ _) as [role|]; [|discriminate].
    destruct (DomainRepository.GetByID _ _ _) as [domain|]; [|discriminate].
    intros [= <-]. now exists role, domain.
  - intros (role & domain & -> & -> & ->). reflexivity.
Qed.

Lemma buildUserProfile_role_missing user st err :
  RoleRepository.GetByID (roleRepo s) (User.RoleID user) st = Err err ->
  buildUserProfile s user st = Err (fmt.Errorf_w "failed to get role: " err).
Proof. unfold buildUserProfile. now intros ->. Qed.

Lemma buildUserProfile_domain_missing user st role err :
  RoleRepository.GetByID (roleRepo s) (User.RoleID user) st = Ok role ->
  DomainRepository.GetByID (domainRepo s) (User.DomainID user) st = Err err ->
  buildUserProfile s user st = Err (fmt.Errorf_w "failed to get domain: " err).
Proof. unfold buildUserProfile. now intros -> ->. Qed.

Lemma Login_Ok domainID username password t1 t2 t3 st resp :
  Login s domainID username password t1 t2 t3 st = Ok resp ->
  exists user,
    UserRepository.GetByUsername (userRepo s) username st = Ok user
    /\ User.DomainID user = domainID
    /\ verifyPassword (User.PasswordHash user) password = true
    /\ generateToken s user t1 t2 t3 = Ok (AccessToken resp)
    /\ buildUserProfile s user st = Ok (User resp).
Proof.
  unfold Login.
  destruct (UserRepository.GetByUsername _ _ _) as [user|]; [|discriminate].
  destruct (uuid.eqb _ _) eqn:Hd; [|discriminate].
  destruct (verifyPassword _ _) eqn:Hp; [|discriminate]. cbn [negb].
  destruct (generateToken s user t1 t2 t3) as [token|] eqn:Ht; [|discriminate].
  destruct (buildUserProfile _ _ _) as [p|] eqn:Hb; [|discriminate].
  intros [= <-]. exists user. apply uuid_eqb_eq in Hd. repeat split; auto.
Qed.

End Profiles.

(** C7: [GetProfile] takes only the user id and reads the user record from
    storage; it returns the profile assembled from the stored user, role and
    domain exactly when the three lookups hit.  A missed user lookup gives
    "user not found", a missed role lookup "failed to get role", a missed
    domain lookup "failed to get domain" -- and then no profile. *)
Theorem GetProfile_outcomes {S} (s : authService S) (userID : uuid.UUID) (st : S) :
  (forall p,
      GetProfile s userID st = Ok p <->
      exists user role domain,
        UserRepository.GetByID (userRepo s) userID st = Ok user
        /\ RoleRepository.GetByID (roleRepo s) (User.RoleID user) st = Ok role
        /\ DomainRepository.GetByID (domainRepo s) (User.DomainID user) st = Ok domain
        /\ p = profileOf user role domain)
  /\ (forall err,
         UserRepository.GetByID (userRepo s) userID st = Err err ->
         GetProfile s userID st = Err (errorString "user not found"))
  /\ (forall user err,
         UserRepository.GetByID (userRepo s) userID st = Ok user ->
         RoleRepository.GetByID (roleRepo s) (User.RoleID user) st = Err err ->
         GetProfile s userID st
         = Err (wrapError ("failed to get role: " +:+ Error err) [err]))
  /\ (forall user role err,
         UserRepository.GetByID (userRepo s) userID st = Ok user ->
         RoleRepository.GetByID (roleRepo s) (User.RoleID user) st = Ok role ->
         DomainRepository.GetByID (domainRepo s) (User.DomainID user) st = Err err ->
         GetProfile s userID st
         = Err (wrapError ("failed to get domain: " +:+ Error err) [err])).
Proof.
  unfold GetProfile. repeat split.
  - destruct (UserRepository.GetByID _ _ _) as [user|]; [|discriminate].
    intros (role & domain & ? & ? & ?)%buildUserProfile_Ok. now exists user, role, domain.
  - intros (user & role & domain & -> & Hr & Hd & ->).
    apply buildUserProfile_Ok. now exists role, domain.
  - now intros err ->.
  - intros user err -> Hr. now apply buildUserProfile_role_missing.
  - intros user role err -> Hr Hd. now apply (buildUserProfile_domain_missing s user st role).
Qed.



(** The failure cases of [GetProfile] on a directory with dangling
    references. *)
Example GetProfile_no_user :
  GetProfile memdb.authService 0x02%N memdb.scenario = Err (errorString "user not found").
Proof. reflexivity. Qed.

Example GetProfile_no_role :
  GetProfile memdb.authService 0x01%N
             (memdb.mkState [memdb.U] [] [memdb.D] 0%N)
  = Err (wrapError "failed to get role: sql: no rows in result set" [memdb.ErrNoRows]).
Proof. reflexivity. Qed.

Example GetProfile_no_domain :
  GetProfile memdb.authService 0x01%N
             (memdb.mkState [memdb.U] [memdb.R] [] 0%N)
  = Err (wrapError "failed to get domain: sql: no rows in result set" [memdb.ErrNoRows]).
Proof. reflexivity. Qed.

(** ** Role claims *)

Lemma nonNil_not_nil (roleClaims : claimsMap) : nonNil roleClaims <> None.
Proof. now destruct roleClaims. Qed.

(** C9: [CreateRole] and [UpdateRole] hand the repository a role whose
    claims map is the given map when that is not nil and a fresh empty map
    when it is: never the nil map. *)
Theorem role_claims_never_nil {S} (s : roleService S) (domainID id : uuid.UUID)
        (roleName : string) (roleClaims : claimsMap) (st : S) :
  let created := Role.mk uuid.Nil domainID roleName (nonNil roleClaims) time.Zero time.Zero in
  let updated := Role.mk id uuid.Nil roleName (nonNil roleClaims) time.Zero time.Zero in
  Role.RoleClaims created <> None
  /\ Role.RoleClaims updated <> None
  /\ nonNil None = Some ∅
  /\ (forall m, nonNil (Some m) = Some m)
  /\ CreateRole s domainID roleName roleClaims st
     = match RoleRepository.Create (roleService_repo s) created st with
       | (Some err, _, st') => (Err err, st')
       | (None, role, st') => (Ok role, st')
       end
  /\ UpdateRole s id roleName roleClaims st
     = match RoleRepository.Update (roleService_repo s) updated st with
       | (Some err, _, st') => (Err err, st')
       | (None, role, st') => (Ok role, st')
       end.
Proof.
  cbn zeta. repeat split; try reflexivity; apply nonNil_not_nil.
Qed.

(** With the SQL repository the row given to the INSERT carries the
    normalised map. *)
Lemma CreateRole_insert {S} (db : Backend S) domainID roleName roleClaims st :
  CreateRole (mkRoleService (NewRoleRepository db)) domainID roleName roleClaims st
  = let '(id, st1) := uuid_New db st in
    match insertRole db (Role.mk id domainID roleName (nonNil roleClaims)
                                 time.Zero time.Zero) st1 with
    | (Err err, st2) => (Err err, st2)
    | (Ok id', st2) =>
        (Ok (Role.mk id' domainID roleName (nonNil roleClaims) time.Zero time.Zero), st2)
    end.
Proof.
  unfold CreateRole, nonNil. cbn.
  unfold roleRepository_Create. destruct (uuid_New db st) as [id st1]. cbn.
  destruct roleClaims; destruct (insertRole db _ st1) as [[id'|err] st2]; reflexivity.
Qed.

Example CreateRole_nil_claims :
  let '(r, st) := CreateRole (mkRoleService (NewRoleRepository memdb.backend))
                             0xd0%N "viewer" None memdb.scenario in
  r = Ok (Role.mk 0x100%N 0xd0%N "viewer" (Some ∅) time.Zero time.Zero)
  /\ List.map Role.RoleClaims (memdb.roles st) = [Some ∅; Some ∅].
Proof. vm_compute. split; reflexivity. Qed.

(** ** Pagination *)

Lemma normPage_spec (page : Z) :
  1 <= normPage page
  /\ (page <= 0 -> normPage page = 1)
  /\ (0 < page -> normPage page = page).
Proof. unfold normPage. destruct (Z.leb_spec page 0); lia. Qed.

Lemma normLimit_spec (limit : Z) :
  1 <= normLimit limit <= 100
  /\ (limit <= 0 \/ 100 < limit -> normLimit limit = 10)
  /\ (0 < limit <= 100 -> normLimit limit = limit).
Proof.
  unfold normLimit.
  destruct (Z.leb_spec limit 0), (Z.ltb_spec 100 limit); cbn [orb]; lia.
Qed.

Lemma int_wrap_add_l (a b : Z) : int.wrap (int.wrap a + b) = int.wrap (a + b).
Proof.
  unfold int.wrap. f_equal.
  replace ((a + 2 ^ 63) mod 2 ^ 64 - 2 ^ 63 + b + 2 ^ 63)
    with ((a + 2 ^ 63) mod 2 ^ 64 + b) by ring.
  rewrite Zplus_mod_idemp_l. f_equal. ring.
Qed.

Lemma ceilDiv_spec (a b : Z) : 0 < b -> ceilDiv a b = (a + b - 1) / b.
Proof.
  intros Hb. unfold ceilDiv.
  pose proof (Z.div_mod (a + b - 1) b ltac:(lia)) as E.
  pose proof (Z.mod_pos_bound (a + b - 1) b Hb) as R.
  set (q := (a + b - 1) / b) in *. set (r := (a + b - 1) mod b) in *.
  assert ((- a) / b = - q) as -> by (symmetry; apply Z.div_unique with (b - 1 - r); lia).
  lia.
Qed.

Section PaginationBody.
Context {Row : Type}.
Variable queryCount : string -> result Z.
Variable queryRows : string -> Z -> Z -> result (list Row).

Lemma ListWithPagination_paginated (search : string) (page limit : Z) :
  int.inRange page -> int.inRange limit ->
  paginated (queryCount search) (queryRows search) page limit
            (ListWithPagination queryCount queryRows search (normPage page) (normLimit limit)).
Proof.
  intros Hp Hl. unfold paginated, ListWithPagination. cbn zeta.
  destruct (normPage_spec page) as (Hp1 & Hp0 & Hp2).
  destruct (normLimit_spec limit) as (Hl1 & _).
  assert (Hpr : int.inRange (normPage page)).
  { unfold int.inRange, int.MinInt, int.MaxInt in *.
    destruct (Z_le_gt_dec page 0); [rewrite Hp0 by lia | rewrite Hp2 by lia]; lia. }
  assert (Eoff : int.mul (int.sub (normPage page) 1) (normLimit limit)
                 = int.wrap ((normPage page - 1) * normLimit limit)).
  { unfold int.mul, int.sub. rewrite (int_wrap_inRange (normPage page - 1)); [reflexivity|].
    unfold int.inRange, int.MinInt, int.MaxInt in *. lia. }
  rewrite Eoff. split.
  - intros Hfit. apply int_wrap_inRange.
    unfold int.inRange, int.MinInt, int.MaxInt in *. nia.
  - destruct (queryCount search) as [total|err]; [|reflexivity].
    destruct (queryRows search _ _) as [items|err]; [|reflexivity].
    unfold int.quo, int.sub, int.add.
    destruct (Z.eqb_spec (normLimit limit) 0) as [E|_]; [lia|].
    replace (int.wrap (total + normLimit limit) - 1)
      with (int.wrap (total + normLimit limit) + -1) by ring.
    rewrite int_wrap_add_l.
    replace (total + normLimit limit + -1) with (total + normLimit limit - 1) by ring.
    split; [reflexivity|].
    intros Ht. unfold int.MaxInt in Ht.
    rewrite (int_wrap_inRange (total + normLimit limit - 1))
      by (unfold int.inRange, int.MinInt, int.MaxInt; lia).
    rewrite Z.quot_div_nonneg by lia.
    rewrite ceilDiv_spec by lia.
    apply int_wrap_inRange.
    unfold int.inRange, int.MinInt, int.MaxInt.
    pose proof (Z.div_pos (total + normLimit limit - 1) (normLimit limit)
                          ltac:(lia) ltac:(lia)).
    pose proof (Z.div_le_upper_bound (total + normLimit limit - 1) (normLimit limit)
                                     (2 ^ 63 - 1) ltac:(lia) ltac:(nia)).
    lia.
Qed.
End PaginationBody.

(** C8, as the code has it: each paginated list operation (users, roles,
    domains) replaces a page below 1 by 1 and a limit outside 1..100 by 10,
    binds the page statement to the normalised limit and to the offset
    (page - 1) * limit computed in 64-bit arithmetic -- the mathematical
    product whenever that fits an int --, echoes the normalised page and
    limit, and sets TotalPages to (total + limit - 1) / limit, which is the
    ceiling of total / limit for every count that leaves the sum within
    an int. *)
Theorem pagination_normalised {S} (db : Backend S) (search : string) (domainID : uuid.UUID)
        (page limit : Z) (st : S) :
  int.inRange page -> int.inRange limit ->
  (1 <= normPage page
   /\ (page <= 0 -> normPage page = 1) /\ (0 < page -> normPage page = page))
  /\ (1 <= normLimit limit <= 100
      /\ (limit <= 0 \/ 100 < limit -> normLimit limit = 10)
      /\ (0 < limit <= 100 -> normLimit limit = limit))
  /\ paginated (countUsers db domainID search st)
               (fun l o => pageUsers db domainID search l o st) page limit
               (ListUsersWithPagination (mkUserService (NewUserRepository db))
                                        search domainID page limit st)
  /\ paginated (countRoles db domainID search st)
               (fun l o => pageRoles db domainID search l o st) page limit
               (ListRolesWithPagination (mkRoleService (NewRoleRepository db))
                                        search domainID page limit st)
  /\ paginated (countDomains db search st)
               (fun l o => pageDomains db search l o st) page limit
               (ListDomainsWithPagination (mkDomainService (NewDomainRepository db))
                                          search page limit st).
Proof.
  intros Hp Hl.
  split; [apply normPage_spec|]. split; [apply normLimit_spec|].
  split; [|split].
  - apply (ListWithPagination_paginated (fun q => countUsers db domainID q st)
             (fun q l o => pageUsers db domainID q l o st) search page limit Hp Hl).
  - apply (ListWithPagination_paginated (fun q => countRoles db domainID q st)
             (fun q l o => pageRoles db domainID q l o st) search page limit Hp Hl).
  - apply (ListWithPagination_paginated (fun q => countDomains db q st)
             (fun q l o => pageDomains db q l o st) search page limit Hp Hl).
Qed.

Lemma pagination_normalised_witness :
  int.inRange 0 /\ int.inRange 500
  /\ ListUsersWithPagination (mkUserService (NewUserRepository memdb.backend))
                             "" 0xd0%N 0 500 memdb.scenario
     = Return (Ok (mkListResult [memdb.U] 1 1 10 1))
  /\ paginated (Ok 1) (fun l o => memdb.page [memdb.U] l o) 0 500
               (ListUsersWithPagination (mkUserService (NewUserRepository memdb.backend))
                                        "" 0xd0%N 0 500 memdb.scenario).
Proof.
  assert (H0 : int.inRange 0) by (split; discriminate).
  assert (H500 : int.inRange 500) by (split; discriminate).
  split; [exact H0|]. split; [exact H500|]. split; [reflexivity|].
  exact (proj1 (proj2 (proj2
           (pagination_normalised memdb.backend "" 0xd0%N 0 500 memdb.scenario H0 H500)))).
Defined.

(** At page 9223372036854775807 with limit 100 the 64-bit product wraps:
    the page statement is bound to offset -200, which the database refuses. *)
Lemma pagination_offset_overflow :
  int.inRange 9223372036854775807
  /\ normPage 9223372036854775807 = 9223372036854775807
  /\ normLimit 100 = 100
  /\ ListWithPagination (fun _ => Ok 0) (fun _ limit offset => Ok [limit; offset]) ""
                        9223372036854775807 100
     = Return (Ok (mkListResult [100; -200] 0 9223372036854775807 100 0))
  /\ -200 <> (9223372036854775807 - 1) * 100
  /\ ListUsersWithPagination (mkUserService (NewUserRepository memdb.backend))
                             "" 0xd0%N 9223372036854775807 100 memdb.scenario
     = Return (Err (errorString "pq: OFFSET must not be negative")).
Proof.
  repeat split; try reflexivity; discriminate.
Qed.

(** ** The credential hasher *)

Lemma Sum256_length (data : list byte) : List.length (Sha2.Sum256 data) = 32%nat.
Proof.
  unfold Sha2.Sum256, Sha2.digest.
  generalize (fold_left (Sha2.compress Sha2.sha256_params)
                (Bytes.chunks (Sha2.blockSize Sha2.sha256_params)
                              (Sha2.pad Sha2.sha256_params data))
                (Sha2.regs_of (Sha2.IV Sha2.sha256_params))).
  intros r. reflexivity.
Qed.

(** Some of the derived constants, and test vectors, checked by evaluation. *)
Example sha2_constants :
  List.length Sha2.primes = 80%nat
  /\ nth 0 Sha2.K256 0 = 0x428a2f98 /\ nth 63 Sha2.K256 0 = 0xc67178f2
  /\ List.length Sha2.K256 = 64%nat /\ List.length Sha2.K512 = 80%nat
  /\ nth 0 Sha2.H256 0 = 0x6a09e667 /\ nth 0 Sha2.H384 0 = 0xcbbb9d5dc1059ed8.
Proof. split_all; by_eval. Qed.

Example Sum256_abc :
  Encoding.Sprintf_x (Sha2.Sum256 (Bytes.of_string "abc"))
  = "ba7816bf8f01cfea414140de5dae2223b00361a396177a9cb410ff61f20015ad".
Proof. vm_compute. reflexivity. Qed.

Example Sum384_abc :
  Encoding.Sprintf_x (Sha2.Sum384 (Bytes.of_string "abc"))
  = "cb00753f45a35e8bb5a03d699ac65007272c32ab0eded1631a8b605a43ff5bed8086072ba1e7cc2358baeca134c825a7".
Proof. vm_compute. reflexivity. Qed.

Example Sum512_abc :
  Encoding.Sprintf_x (Sha2.Sum512 (Bytes.of_string "abc"))
  = "ddaf35a193617abacc417349ae20413112e6fa4e89a97ea20a9eeee64b55d39a2192992a274fc1a836ba3c23a3feebbd454d4423643ce80e2a9ac94fa54ca49f".
Proof. vm_compute. reflexivity. Qed.

Example hmac_sha256_hello :
  Encoding.Sprintf_x (Hmac.Sum Sha2.sha256_params (Bytes.of_string "your-secret-key")
                               (Bytes.of_string "hello"))
  = "9a8d75e387a0e0ae37f86018cc29760c611457f2c182060b21e57bf9ad7ff010".
Proof. vm_compute. reflexivity. Qed.

Example hashPassword_s3cret :
  hashPassword "s3cret!" = "5cb7b35eb7ae9bbd505baa5cde3fb64c1e9a5e8862072013989c0a557ab9eaa2"
  /\ VerifyPassword (hashPassword "s3cret!") "s3cret!" = true
  /\ VerifyPassword (hashPassword "s3cret!") "wrong" = false.
Proof. vm_compute. repeat split; reflexivity. Qed.

Lemma VerifyPassword_true (digest p : string) :
  VerifyPassword digest p = true <-> hashPassword p = digest.
Proof. unfold VerifyPassword. apply String.eqb_eq. Qed.

Lemma verifyPassword_VerifyPassword (digest p : string) :
  verifyPassword digest p = VerifyPassword digest p.
Proof. reflexivity. Qed.

Lemma length_str (l : list ascii) : String.length (Encoding.str l) = List.length l.
Proof. induction l as [|c l IH]; simpl; [reflexivity | now rewrite IH]. Qed.

Lemma Sprintf_x_length (b : list byte) :
  String.length (Encoding.Sprintf_x b) = (2 * List.length b)%nat.
Proof.
  unfold Encoding.Sprintf_x. rewrite length_str.
  induction b as [|x b IH]; simpl in *; [reflexivity | rewrite IH; lia].
Qed.

(** C5, as the code has it: hashing is a function of the password alone;
    verify(digest, p) is true exactly when hash(p) = digest, in both copies
    of the check; so verify(hash(p), p) is true, and verify(hash(p), p2) is
    false exactly when the two digests differ.  A digest is 64 hexadecimal
    digits. *)
Theorem hasher_contract (digest p p2 : string) :
  (p = p2 -> hashPassword p = hashPassword p2)
  /\ (VerifyPassword digest p = true <-> hashPassword p = digest)
  /\ verifyPassword digest p = VerifyPassword digest p
  /\ VerifyPassword (hashPassword p) p = true
  /\ (VerifyPassword (hashPassword p) p2 = false <-> hashPassword p2 <> hashPassword p)
  /\ hashPassword p = Encoding.Sprintf_x (Sha2.Sum256 (Bytes.of_string p))
  /\ String.length (hashPassword p) = 64%nat.
Proof.
  split; [now intros ->|].
  split; [apply VerifyPassword_true|]. split; [reflexivity|].
  split; [now apply VerifyPassword_true|]. split; [|split; [reflexivity|]].
  - rewrite <- VerifyPassword_true. destruct (VerifyPassword _ _); split; congruence.
  - unfold hashPassword. now rewrite Sprintf_x_length, Sum256_length.
Qed.

Lemma byte_card : card byte = 256%nat.
Proof. reflexivity. Qed.

(** There are more 33-byte passwords than 32-byte digests. *)
Lemma hashPassword_collision :
  exists p p2 : string, p <> p2 /\ hashPassword p = hashPassword p2.
Proof.
  pose (f := fun x : { l : list byte | List.length l = 33%nat } =>
               (Sha2.Sum256 (proj1_sig x) ↾ Sum256_length (proj1_sig x)
                : { l : list byte | List.length l = 32%nat })).
  destruct (finite_pigeonhole f) as (x1 & x2 & Hne & Heq).
  { rewrite !list_card, byte_card. apply Nat.pow_lt_mono_r; lia. }
  exists (Bytes.to_string (proj1_sig x1)), (Bytes.to_string (proj1_sig x2)). split.
  - intros E. apply Hne. apply (sig_eq_pi _).
    apply (f_equal Bytes.of_string) in E. unfold Bytes.of_string, Bytes.to_string in E.
    now rewrite !list_byte_of_string_of_list_byte in E.
  - apply (f_equal proj1_sig) in Heq. unfold f in Heq. cbn [proj1_sig] in Heq.
    unfold hashPassword, Bytes.of_string, Bytes.to_string.
    rewrite !list_byte_of_string_of_list_byte. now rewrite Heq.
Qed.

(** Some password is accepted against the digest of a different one: the
    statement "verify(hash(p), p2) is false for every p2 different from p"
    does not hold of a 256-bit digest. *)
Lemma VerifyPassword_accepts_a_different_password :
  ~ (forall p p2 : string, p <> p2 -> VerifyPassword (hashPassword p) p2 = false).
Proof.
  intros H. destruct hashPassword_collision as (p & p2 & Hne & Heq).
  specialize (H p p2 Hne). rewrite Heq in H.
  assert (VerifyPassword (hashPassword p2) p2 = true) by now apply VerifyPassword_true.
  congruence.
Qed.

(** ** The token codec *)

Lemma GetSigningMethod_Alg (alg : string) (m : jwt.SigningMethod) :
  jwt.GetSigningMethod alg = Some m -> alg = jwt.Alg m.
Proof.
  intros H. apply find_some in H. destruct H as [_ H].
  apply String.eqb_eq in H. now symmetry.
Qed.

Lemma GetSigningMethod_HMAC (h : jwt.HashFunc) :
  jwt.GetSigningMethod (jwt.Alg (jwt.SigningMethodHMAC h)) = Some (jwt.SigningMethodHMAC h).
Proof. destruct h; reflexivity. Qed.

Lemma Validate_None (now : time.Time) (claims : TokenClaims) :
  jwt.Validate now claims = None <-> inValidity now claims.
Proof.
  unfold inValidity, jwt.Validate, jwt.verifyExpiresAt, jwt.verifyNotBefore,
    jwt.dateTime, time.Before.
  cbn [jwt.GetExpirationTime jwt.GetNotBefore TokenClaims_Claims].
  destruct (jwt.ExpiresAt (Registered claims)) as [exp|];
    destruct (jwt.NotBefore (Registered claims)) as [nbf|];
    repeat match goal with
           | |- context [?a <? ?b] => destruct (Z.ltb_spec a b)
           end;
    cbn; (split; [ try discriminate; intros _; split; intros ? [= <-]; lia
                 | intros [H1 H2]; try specialize (H1 _ eq_refl);
                   try specialize (H2 _ eq_refl); (reflexivity || lia) ]).
Qed.

Section ValidateTokenFacts.
Context {S : Type} (s : authService S).

Lemma ValidateToken_Ok (tokenString : jwt.TokenString TokenClaims) (now : time.Time)
      (claims : TokenClaims) :
  ValidateToken s tokenString now = Ok claims
  <-> exists h,
        tokenString = jwt.Compact (Some (jwt.Alg (jwt.SigningMethodHMAC h))) claims
                                  (serverMAC s h claims)
        /\ inValidity now claims.
Proof.
  setoid_rewrite <- Validate_None.
  unfold ValidateToken, jwt.ParseWithClaims, jwt.ParseUnverified, serverMAC. split.
  - destruct tokenString as [[alg|] c sig | raw]; try discriminate.
    destruct (jwt.GetSigningMethod alg) as [m|] eqn:Hm; [|discriminate].
    apply GetSigningMethod_Alg in Hm. subst alg.
    destruct m as [h| | | | |]; try discriminate.
    cbn [keyFunc jwt.Method jwt.HeaderAlg jwt.TClaims jwt.Signature jwt.Verify jwt.Raw].
    unfold Hmac.Equal.
    destruct (Hmac.bytes_eqb sig _) eqn:Hsig; [|discriminate].
    apply bytes_eqb_eq in Hsig.
    destruct (jwt.Validate now c) eqn:Hv; [discriminate|].
    cbn [jwt.Valid]. intros [= <-]. subst sig. now exists h.
  - intros (h & -> & Hv).
    rewrite GetSigningMethod_HMAC.
    cbn [keyFunc jwt.Method jwt.HeaderAlg jwt.TClaims jwt.Signature jwt.Verify jwt.Raw].
    unfold Hmac.Equal.
    assert (Hsig : forall b, Hmac.bytes_eqb b b = true) by (intros b; now apply bytes_eqb_eq).
    rewrite Hsig, Hv. reflexivity.
Qed.

Lemma ValidateToken_Err (tokenString : jwt.TokenString TokenClaims) (now : time.Time)
      (err : error) :
  ValidateToken s tokenString now = Err err ->
  exists cause, err = fmt.Errorf_w "invalid token: " cause.
Proof.
  unfold ValidateToken.
  destruct (jwt.ParseWithClaims now tokenString (keyFunc s)) as [[token|] [cause|]] eqn:Hp.
  - intros [= <-]. now exists cause.
  - revert Hp. unfold jwt.ParseWithClaims.
    destruct (jwt.ParseUnverified tokenString) as [[t|] [e|]]; try discriminate.
    destruct (keyFunc s t); try discriminate.
    destruct (match jwt.Method t with Some _ => _ | None => _ end); try discriminate.
    destruct (jwt.Validate now (jwt.TClaims t)); try discriminate.
    intros [= <-]. discriminate.
  - intros [= <-]. now exists cause.
  - revert Hp. unfold jwt.ParseWithClaims.
    destruct (jwt.ParseUnverified tokenString) as [[t|] [e|]]; try discriminate.
    destruct (keyFunc s t); try discriminate.
    destruct (match jwt.Method t with Some _ => _ | None => _ end); try discriminate.
    destruct (jwt.Validate now (jwt.TClaims t)); discriminate.
Qed.


Lemma generateToken_Ok (user : User.t) (tExp tIat tNbf : time.Time) :
  generateToken s user tExp tIat tNbf
  = Ok (jwt.Compact (Some (jwt.Alg jwt.SigningMethodHS256))
                    (issuedClaims s user tExp tIat tNbf)
                    (serverMAC s jwt.SHA256 (issuedClaims s user tExp tIat tNbf))).
Proof. reflexivity. Qed.
End ValidateTokenFacts.



(** Rejections of the remaining kinds, by evaluation. *)
Example ValidateToken_rejections :
  Error (memdb.errorOf (ValidateToken memdb.authService memdb.noneToken memdb.t0))
  = "invalid token: token is unverifiable: error while executing keyfunc: unexpected signing method: none"
  /\ Error (memdb.errorOf (ValidateToken memdb.authService memdb.forgedToken memdb.t0))
     = "invalid token: token signature is invalid: signature is invalid"
  /\ Error (memdb.errorOf (ValidateToken memdb.authService (jwt.Malformed "abc") memdb.t0))
     = "invalid token: token is malformed: token contains an invalid number of segments"
  /\ ValidateToken memdb.authService memdb.noExpiryToken (memdb.t0 + 1000 * memdb.oneDay)
     = Ok (memdb.claimsFor None None).
Proof. vm_compute. repeat split; reflexivity. Qed.

(** ** What a failed validation shows *)

(** C6, as the code has it: every failure of [ValidateToken] is an error
    whose text starts with "invalid token: " and which wraps the library's
    error, so the service's error keeps the cause; the HTTP handler answers
    every failure with the same 401 response, "Invalid or expired token". *)
Theorem ValidateToken_failure_surface {S} (s : authService S)
        (token1 token2 : jwt.TokenString TokenClaims) (now1 now2 : time.Time)
        (err1 err2 : error) :
  ValidateToken s token1 now1 = Err err1 ->
  ValidateToken s token2 now2 = Err err2 ->
  handlers.AuthHandler_ValidateToken s (handlers.Bearer token1) now1
  = handlers.AuthHandler_ValidateToken s (handlers.Bearer token2) now2
  /\ handlers.AuthHandler_ValidateToken s (handlers.Bearer token1) now1
     = handlers.mkResponse 401 (handlers.ErrorBody "Invalid or expired token")
  /\ (exists cause, err1 = wrapError ("invalid token: " +:+ Error cause) [cause])
  /\ (exists cause, err2 = wrapError ("invalid token: " +:+ Error cause) [cause]).
Proof.
  intros H1 H2. unfold handlers.AuthHandler_ValidateToken. rewrite H1, H2.
  repeat split; try reflexivity; eapply ValidateToken_Err; eauto.
Qed.

Lemma ValidateToken_failure_surface_witness :
  handlers.AuthHandler_ValidateToken memdb.authService (handlers.Bearer memdb.aliceToken)
                                     (memdb.t0 + memdb.oneDay + time.Hour)
  = handlers.AuthHandler_ValidateToken memdb.authService (handlers.Bearer memdb.forgedToken)
                                       (memdb.t0 + time.Hour)
  /\ handlers.AuthHandler_ValidateToken memdb.authService (handlers.Bearer memdb.aliceToken)
                                        (memdb.t0 + memdb.oneDay + time.Hour)
     = handlers.mkResponse 401 (handlers.ErrorBody "Invalid or expired token")
  /\ (exists cause, memdb.expiredError = wrapError ("invalid token: " +:+ Error cause) [cause])
  /\ (exists cause, memdb.forgedError = wrapError ("invalid token: " +:+ Error cause) [cause]).
Proof.
  apply (ValidateToken_failure_surface memdb.authService memdb.aliceToken memdb.forgedToken
           (memdb.t0 + memdb.oneDay + time.Hour) (memdb.t0 + time.Hour)
           memdb.expiredError memdb.forgedError).
  - vm_compute. reflexivity.
  - vm_compute. reflexivity.
Defined.

(** The service's error for an expired token and for a forged one are
    different values with different texts. *)
Lemma ValidateToken_error_tells_expired_from_forged :
  ValidateToken memdb.authService memdb.aliceToken (memdb.t0 + memdb.oneDay + time.Hour)
  = Err memdb.expiredError
  /\ ValidateToken memdb.authService memdb.forgedToken (memdb.t0 + time.Hour)
     = Err memdb.forgedError
  /\ Error memdb.expiredError = "invalid token: token has invalid claims: token is expired"
  /\ Error memdb.forgedError = "invalid token: token signature is invalid: signature is invalid"
  /\ memdb.expiredError <> memdb.forgedError.
Proof. split_all; by_eval. Qed.

(** ** Login, then validation *)

Lemma issue_window (tExp tNbf now : time.Time) (ttl : time.Duration) :
  tNbf <= now -> now + time.Second <= tExp + ttl ->
  time.Unix (jwt.NewNumericDate tNbf) <= now
  < time.Unix (jwt.NewNumericDate (time.Add tExp ttl)).
Proof.
  unfold time.Unix, jwt.NewNumericDate, time.Add, time.Second. intros H1 H2.
  pose proof (Z.mul_div_le tNbf 1000000000 ltac:(lia)).
  pose proof (Z.mod_pos_bound (tExp + ttl) 1000000000 ltac:(lia)).
  pose proof (Z.div_mod (tExp + ttl) 1000000000 ltac:(lia)).
  lia.
Qed.



(** The scenario of the specification, by evaluation: the token issued to
    alice is the compact string below, and it decodes to her claims. *)
Example scenario_token :
  Login memdb.authService 0xd0%N "alice" "s3cret!" memdb.t0 memdb.t0 memdb.t0 memdb.scenario
  = Ok (mkLoginResponse memdb.aliceToken (profileOf memdb.U memdb.R memdb.D))
  /\ jwt.SigningString (Some "HS256") memdb.aliceClaims
     = "eyJhbGciOiJIUzI1NiIsInR5cCI6IkpXVCJ9.eyJ1c2VyX2lkIjoiMDAwMDAwMDAtMDAwMC0wMDAwLTAwMDAtMDAwMDAwMDAwMDAxIiwiZG9tYWluX2lkIjoiMDAwMDAwMDAtMDAwMC0wMDAwLTAwMDAtMDAwMDAwMDAwMGQwIiwidXNlcm5hbWUiOiJhbGljZSIsInJvbGVfaWQiOiIwMDAwMDAwMC0wMDAwLTAwMDAtMDAwMC0wMDAwMDAwMDAwYTAiLCJpc3MiOiJudXNhcml0aG0taWFtIiwic3ViIjoiMDAwMDAwMDAtMDAwMC0wMDAwLTAwMDAtMDAwMDAwMDAwMDAxIiwiZXhwIjoxNzAwMDg2NDAwLCJuYmYiOjE3MDAwMDAwMDAsImlhdCI6MTcwMDAwMDAwMH0"
  /\ Encoding.EncodeSegment (serverMAC memdb.authService jwt.SHA256 memdb.aliceClaims)
     = "rsXt8ttD4wYbwObMmDxIw_fvKwxVsWlnGAcNG_oxz2g"
  /\ ValidateToken memdb.authService memdb.aliceToken (memdb.t0 + time.Hour)
     = Ok memdb.aliceClaims
  /\ Login memdb.authService 0xd0%N "alice" "wrong" memdb.t0 memdb.t0 memdb.t0 memdb.scenario
     = Err InvalidCredentials.
Proof. vm_compute. repeat split; reflexivity. Qed.

(** * Further properties of the code *)

(** ** The lifetime of an issued token *)

Section IssuedTokens.
Context {S : Type} (s : authService S).

Lemma issuedClaims_inValidity (user : User.t) (tExp tIat tNbf now : time.Time) :
  inValidity now (issuedClaims s user tExp tIat tNbf)
  <-> time.Unix (jwt.NewNumericDate tNbf) <= now
      < time.Unix (jwt.NewNumericDate (time.Add tExp (tokenExpiry s))).
Proof.
  unfold inValidity. cbn. split.
  - intros [H1 H2]. specialize (H1 _ eq_refl). specialize (H2 _ eq_refl). lia.
  - intros H. split; intros ? [= <-]; lia.
Qed.

Lemma issued_token_accepted (user : User.t) (tExp tIat tNbf now : time.Time)
      (claims : TokenClaims) :
  ValidateToken s (jwt.Compact (Some (jwt.Alg jwt.SigningMethodHS256))
                               (issuedClaims s user tExp tIat tNbf)
                               (serverMAC s jwt.SHA256 (issuedClaims s user tExp tIat tNbf)))
                now = Ok claims
  <-> claims = issuedClaims s user tExp tIat tNbf
      /\ time.Unix (jwt.NewNumericDate tNbf) <= now
         < time.Unix (jwt.NewNumericDate (time.Add tExp (tokenExpiry s))).
Proof.
  rewrite ValidateToken_Ok. split.
  - intros (h & Heq & Hv). injection Heq as _ <- _.
    split; [reflexivity|]. now apply issuedClaims_inValidity in Hv.
  - intros [-> Hw]. exists jwt.SHA256. split; [reflexivity|].
    now apply issuedClaims_inValidity.
Qed.
End IssuedTokens.



(** One day after the issue instant the token of the scenario is past its
    expiry second, one nanosecond before that second it is not. *)
Example token_expires_on_the_second :
  memdb.errorOf (ValidateToken memdb.authService memdb.aliceToken (memdb.t0 + memdb.oneDay))
  = memdb.expiredError
  /\ ValidateToken memdb.authService memdb.aliceToken (time.Unix 1700086400 - 1)
     = Ok memdb.aliceClaims
  /\ Error (memdb.errorOf (ValidateToken memdb.authService memdb.aliceToken
                                         (time.Unix 1700086400)))
     = "invalid token: token has invalid claims: token is expired".
Proof. split_all; by_eval. Qed.

(** ** The login endpoint *)

Lemma Contains_append (prefix s substr : string) :
  strings.Contains s substr = true -> strings.Contains (prefix +:+ s) substr = true.
Proof.
  intros H. induction prefix as [|c prefix IH]; [exact H|].
  change (String c prefix +:+ s) with (String c (prefix +:+ s)).
  change (strings.Contains (String c (prefix +:+ s)) substr)
    with (strings.HasPrefix (String c (prefix +:+ s)) substr
          || strings.Contains (prefix +:+ s) substr).
  rewrite IH. apply orb_true_r.
Qed.

Section LoginEndpoint.
Context {S : Type} (s : authService S).

Lemma AuthHandler_Login_Err domainID username password t1 t2 t3 st err :
  Login s domainID username password t1 t2 t3 st = Err err ->
  api.AuthHandler_Login s (Some (api.ValidUUID domainID))
                        (api.Bound (api.mkLoginRequest username password)) t1 t2 t3 st
  = if strings.Contains (Error err) "invalid credentials"
    then api.JSONError 401 "Invalid username or password"
    else api.JSONError 500 "Login failed".
Proof. unfold api.AuthHandler_Login. cbn [api.Username api.Password]. now intros ->. Qed.

End LoginEndpoint.

(** X2: over HTTP the three refusals of a login -- unknown username, user
    of another domain, wrong password -- are one and the same answer: status
    401 with the message "Invalid username or password". *)
Theorem AuthHandler_Login_refusals {S} (s : authService S) (c : FailureCause)
        (domainID : uuid.UUID) (username password : string)
        (tExp tIat tNbf : time.Time) (st : S) :
  failsBy c s domainID username password st ->
  api.AuthHandler_Login s (Some (api.ValidUUID domainID))
                        (api.Bound (api.mkLoginRequest username password))
                        tExp tIat tNbf st
  = api.JSONError 401 "Invalid username or password".
Proof.
  intros H. rewrite (AuthHandler_Login_Err s _ _ _ _ _ _ _ InvalidCredentials).
  - reflexivity.
  - now apply (Login_failsBy s c).
Qed.

Lemma AuthHandler_Login_refusals_witness :
  api.AuthHandler_Login memdb.authService (Some (api.ValidUUID 0xd1%N))
                        (api.Bound (api.mkLoginRequest "alice" "s3cret!"))
                        memdb.t0 memdb.t0 memdb.t0 memdb.scenario
  = api.JSONError 401 "Invalid username or password".
Proof.
  apply (AuthHandler_Login_refusals memdb.authService WrongDomain).
  exists memdb.U. split; [reflexivity | discriminate].
Defined.



(** X4: the endpoint tells a refusal from a failure by the text of the
    error alone.  With the right credentials, a failed lookup of the user's
    role whose error text contains "invalid credentials" is answered like a
    wrong password: 401 "Invalid username or password". *)
Theorem AuthHandler_Login_reads_error_text {S} (s : authService S)
        (domainID : uuid.UUID) (username password : string)
        (tExp tIat tNbf : time.Time) (st : S) (user : User.t) (err : error) :
  UserRepository.GetByUsername (userRepo s) username st = Ok user ->
  User.DomainID user = domainID ->
  verifyPassword (User.PasswordHash user) password = true ->
  RoleRepository.GetByID (roleRepo s) (User.RoleID user) st = Err err ->
  strings.Contains (Error err) "invalid credentials" = true ->
  api.AuthHandler_Login s (Some (api.ValidUUID domainID))
                        (api.Bound (api.mkLoginRequest username password))
                        tExp tIat tNbf st
  = api.JSONError 401 "Invalid username or password".
Proof.
  intros Hu Hd Hp Hr Hc.
  assert (HL : Login s domainID username password tExp tIat tNbf st
               = Err (fmt.Errorf_w "failed to build user profile: "
                                   (fmt.Errorf_w "failed to get role: " err))).
  { unfold Login. rewrite Hu. apply uuid_eqb_eq in Hd. rewrite Hd, Hp. cbn [negb].
    rewrite generateToken_Ok.
    now rewrite (buildUserProfile_role_missing s user st err Hr). }
  rewrite (AuthHandler_Login_Err s _ _ _ _ _ _ _ _ HL).
  assert (Etext : Error (fmt.Errorf_w "failed to build user profile: "
                                      (fmt.Errorf_w "failed to get role: " err))
                  = "failed to build user profile: failed to get role: " +:+ Error err)
    by reflexivity.
  rewrite Etext. now rewrite Contains_append.
Qed.

Lemma AuthHandler_Login_reads_error_text_witness :
  api.AuthHandler_Login
    (memdbw.authServiceWith
       (memdbw.failingRoles (errors.New "pq: invalid credentials for database")))
    (Some (api.ValidUUID 0xd0%N))
    (api.Bound (api.mkLoginRequest "alice" "s3cret!"))
    memdb.t0 memdb.t0 memdb.t0 memdb.scenario
  = api.JSONError 401 "Invalid username or password".
Proof.
  apply (AuthHandler_Login_reads_error_text
           (memdbw.authServiceWith
              (memdbw.failingRoles (errors.New "pq: invalid credentials for database")))
           0xd0%N "alice" "s3cret!" memdb.t0 memdb.t0 memdb.t0 memdb.scenario memdb.U
           (errors.New "pq: invalid credentials for database")).
  - reflexivity.
  - reflexivity.
  - vm_compute. reflexivity.
  - reflexivity.
  - vm_compute. reflexivity.
Defined.

(** A role that is simply missing gives 500. *)
Example AuthHandler_Login_missing_role :
  api.AuthHandler_Login memdb.authService (Some (api.ValidUUID 0xd0%N))
                        (api.Bound (api.mkLoginRequest "alice" "s3cret!"))
                        memdb.t0 memdb.t0 memdb.t0
                        (memdb.mkState [memdb.U] [] [memdb.D] 0%N)
  = api.JSONError 500 "Login failed".
Proof. by_eval. Qed.

(** ** The profile endpoint *)

Section ProfileEndpoint.
Context {S : Type} (s : authService S).

Lemma AuthHandler_GetProfile_issued (user : User.t) (tExp tIat tNbf now : time.Time) (st : S) :
  time.Unix (jwt.NewNumericDate tNbf) <= now
  < time.Unix (jwt.NewNumericDate (time.Add tExp (tokenExpiry s))) ->
  api.AuthHandler_GetProfile s
    (handlers.Bearer
       (jwt.Compact (Some (jwt.Alg jwt.SigningMethodHS256))
                    (issuedClaims s user tExp tIat tNbf)
                    (serverMAC s jwt.SHA256 (issuedClaims s user tExp tIat tNbf))))
    now st
  = match GetProfile s (User.ID user) st with
    | Ok profile => api.JSON 200 profile
    | Err _ => api.JSONError 401 "User not found"
    end.
Proof.
  intros Hw. unfold api.AuthHandler_GetProfile.
  assert (Hv : ValidateToken s
                 (jwt.Compact (Some (jwt.Alg jwt.SigningMethodHS256))
                    (issuedClaims s user tExp tIat tNbf)
                    (serverMAC s jwt.SHA256 (issuedClaims s user tExp tIat tNbf))) now
               = Ok (issuedClaims s user tExp tIat tNbf))
    by now apply issued_token_accepted.
  rewrite Hv. reflexivity.
Qed.
End ProfileEndpoint.

(** X5: the round trip of the two endpoints.  When the directory finds the
    user of a login under its id as it found it under its username, the
    profile endpoint, given the login's token inside its lifetime, answers
    200 with the very profile the login returned. *)
Theorem Login_then_GetProfile {S} (s : authService S)
        (domainID : uuid.UUID) (username password : string)
        (tExp tIat tNbf now : time.Time) (st : S) (resp : LoginResponse) :
  Login s domainID username password tExp tIat tNbf st = Ok resp ->
  (forall user, UserRepository.GetByUsername (userRepo s) username st = Ok user ->
                UserRepository.GetByID (userRepo s) (User.ID user) st = Ok user) ->
  time.Unix (jwt.NewNumericDate tNbf) <= now
  < time.Unix (jwt.NewNumericDate (time.Add tExp (tokenExpiry s))) ->
  api.AuthHandler_GetProfile s (handlers.Bearer (AccessToken resp)) now st
  = api.JSON 200 (User resp).
Proof.
  intros H Hid Hw. apply Login_Ok in H. destruct H as (user & Hu & _ & _ & Ht & Hb).
  rewrite generateToken_Ok in Ht. injection Ht as Ht. rewrite <- Ht.
  rewrite AuthHandler_GetProfile_issued by exact Hw.
  unfold GetProfile. rewrite (Hid user Hu), Hb. reflexivity.
Qed.

Lemma Login_then_GetProfile_witness :
  api.AuthHandler_GetProfile memdb.authService
    (handlers.Bearer
       (AccessToken (mkLoginResponse memdb.aliceToken
                                     (profileOf memdb.U memdb.R memdb.D))))
    (memdb.t0 + time.Hour) memdb.scenario
  = api.JSON 200 (User (mkLoginResponse memdb.aliceToken
                                        (profileOf memdb.U memdb.R memdb.D))).
Proof.
  apply (Login_then_GetProfile memdb.authService 0xd0%N "alice" "s3cret!"
           memdb.t0 memdb.t0 memdb.t0 (memdb.t0 + time.Hour) memdb.scenario).
  - vm_compute. reflexivity.
  - intros user H. vm_compute in H. injection H as <-. vm_compute. reflexivity.
  - vm_compute. split; [discriminate | reflexivity].
Defined.

(** X6: a token is checked without the directory.  Whatever has become of
    the directory since the login -- password reset, user moved or
    removed --, inside the token's lifetime the profile endpoint never
    refuses the token itself: it answers from the present state alone, 200
    with the profile now found under the user's id, or 401 "User not
    found" when there is none. *)
Theorem token_outlives_directory_changes {S} (s : authService S)
        (domainID : uuid.UUID) (username password : string)
        (tExp tIat tNbf now : time.Time) (st st' : S) (resp : LoginResponse) :
  Login s domainID username password tExp tIat tNbf st = Ok resp ->
  time.Unix (jwt.NewNumericDate tNbf) <= now
  < time.Unix (jwt.NewNumericDate (time.Add tExp (tokenExpiry s))) ->
  api.AuthHandler_GetProfile s (handlers.Bearer (AccessToken resp)) now st'
  = match GetProfile s (UserProfile.ID (User resp)) st' with
    | Ok profile => api.JSON 200 profile
    | Err _ => api.JSONError 401 "User not found"
    end.
Proof.
  intros H Hw. apply Login_Ok in H. destruct H as (user & _ & _ & _ & Ht & Hb).
  rewrite generateToken_Ok in Ht. injection Ht as Ht. rewrite <- Ht.
  apply buildUserProfile_Ok in Hb. destruct Hb as (role & domain & _ & _ & ->).
  now apply AuthHandler_GetProfile_issued.
Qed.

Lemma token_outlives_directory_changes_witness :
  api.AuthHandler_GetProfile memdb.authService
    (handlers.Bearer
       (AccessToken (mkLoginResponse memdb.aliceToken
                                     (profileOf memdb.U memdb.R memdb.D))))
    (memdb.t0 + time.Hour) memdbw.afterReset
  = match GetProfile memdb.authService
            (UserProfile.ID (User (mkLoginResponse memdb.aliceToken
                                                   (profileOf memdb.U memdb.R memdb.D))))
            memdbw.afterReset with
    | Ok profile => api.JSON 200 profile
    | Err _ => api.JSONError 401 "User not found"
    end.
Proof.
  apply (token_outlives_directory_changes memdb.authService 0xd0%N "alice" "s3cret!"
           memdb.t0 memdb.t0 memdb.t0 (memdb.t0 + time.Hour) memdb.scenario
           memdbw.afterReset).
  - vm_compute. reflexivity.
  - vm_compute. split; [discriminate | reflexivity].
Defined.

(** After alice's password was reset, her old password is refused, but the
    token she got with it still opens her profile; once her row is gone the
    same token gives "User not found". *)
Example old_token_after_password_reset :
  api.AuthHandler_Login memdb.authService (Some (api.ValidUUID 0xd0%N))
                        (api.Bound (api.mkLoginRequest "alice" "s3cret!"))
                        (memdb.t0 + time.Hour) (memdb.t0 + time.Hour) (memdb.t0 + time.Hour)
                        memdbw.afterReset
  = api.JSONError 401 "Invalid username or password"
  /\ api.AuthHandler_GetProfile memdb.authService (handlers.Bearer memdb.aliceToken)
                                (memdb.t0 + time.Hour) memdbw.afterReset
     = api.JSON 200 (profileOf memdb.U memdb.R memdb.D)
  /\ api.AuthHandler_GetProfile memdb.authService (handlers.Bearer memdb.aliceToken)
                                (memdb.t0 + time.Hour)
                                (memdbw.withUsers [] memdb.scenario)
     = api.JSONError 401 "User not found".
Proof. split_all; by_eval. Qed.

(** ** The list endpoints *)

Lemma parseUint_range (l : list ascii) (n : Z) :
  0 <= n <= strconv.maxUint64 -> 0 <= fst (strconv.parseUint l n) <= strconv.maxUint64.
Proof.
  revert n. induction l as [|c l IH]; intros n Hn; cbn [strconv.parseUint]; [exact Hn|].
  cbv zeta.
  destruct ((0 <=? Encoding.code c - 48) && (Encoding.code c - 48 <=? 9)) eqn:Hd;
    cbn [negb]; [|cbn; unfold strconv.maxUint64; lia].
  apply andb_true_iff in Hd. destruct Hd as [H0 H9].
  apply Z.leb_le in H0. apply Z.leb_le in H9.
  destruct (Z.leb_spec (strconv.maxUint64 / 10 + 1) n); [cbn; unfold strconv.maxUint64; lia|].
  destruct (Z.ltb_spec strconv.maxUint64 (n * 10 + (Encoding.code c - 48)));
    [cbn; unfold strconv.maxUint64; lia|].
  apply IH. lia.
Qed.

Lemma Atoi_inRange (s : string) : int.inRange (fst (strconv.Atoi s)).
Proof.
  assert (H0 : int.inRange 0) by (split; discriminate).
  assert (Hmax : int.inRange int.MaxInt) by (split; discriminate).
  assert (Hmin : int.inRange int.MinInt) by (split; discriminate).
  unfold strconv.Atoi. destruct (Encoding.chars s) as [|c rest]; [exact H0|].
  cbv zeta.
  set (neg := Ascii.eqb c "-").
  destruct (if neg || Ascii.eqb c "+" then rest else c :: rest) as [|d digits]; [exact H0|].
  pose proof (parseUint_range (d :: digits) 0) as Hr.
  destruct (strconv.parseUint (d :: digits) 0) as [un [[|]|]]; [exact H0| |];
    cbn [fst] in Hr;
    (destruct (Z.leb_spec (2 ^ 63) un), (Z.ltb_spec (2 ^ 63) un), neg;
     cbn [negb andb fst]; try assumption;
     unfold int.inRange, int.MinInt, int.MaxInt, strconv.maxUint64 in *; lia).
Qed.

Lemma pageParam_range (param : option string) : 1 <= api.pageParam param <= int.MaxInt.
Proof.
  unfold api.pageParam.
  pose proof (Atoi_inRange (api.DefaultQuery param "1")) as H.
  destruct (strconv.Atoi _) as [page err]. cbn [fst] in H.
  destruct err; cbn [orb]; [unfold int.MaxInt; lia|].
  destruct (Z.ltb_spec page 1); unfold int.inRange, int.MaxInt in *; lia.
Qed.

Lemma limitParam_range (param : option string) : 1 <= api.limitParam param <= int.MaxInt.
Proof.
  unfold api.limitParam.
  pose proof (Atoi_inRange (api.DefaultQuery param "10")) as H.
  destruct (strconv.Atoi _) as [limit err]. cbn [fst] in H.
  destruct err; cbn [orb]; [unfold int.MaxInt; lia|].
  destruct (Z.ltb_spec limit 1); unfold int.inRange, int.MaxInt in *; lia.
Qed.

Section ListBodies.
Context {Row : Type}.
Variable queryCount : string -> result Z.
Variable queryRows : string -> Z -> Z -> result (list Row).

Lemma ListWithPagination_returns (search : string) (page limit : Z) :
  1 <= page <= int.MaxInt -> 1 <= limit <= int.MaxInt ->
  exists r,
    ListWithPagination queryCount queryRows search (normPage page) (normLimit limit)
    = Return r
    /\ forall result, r = Ok result ->
                      Page result = page /\ Limit result = normLimit limit.
Proof.
  intros Hp Hl.
  assert (Hpr : int.inRange page) by (unfold int.inRange, int.MinInt, int.MaxInt in *; lia).
  assert (Hlr : int.inRange limit) by (unfold int.inRange, int.MinInt, int.MaxInt in *; lia).
  destruct (ListWithPagination_paginated queryCount queryRows search page limit Hpr Hlr)
    as [_ H].
  assert (Epage : normPage page = page) by (apply normPage_spec; lia).
  destruct (queryCount search) as [total|err].
  - destruct (queryRows search _ _) as [items|err].
    + destruct H as [-> _]. eexists. split; [reflexivity|].
      intros result [= <-]. cbn. now rewrite Epage.
    + rewrite H. eexists. split; [reflexivity|]. intros result [=].
  - rewrite H. eexists. split; [reflexivity|]. intros result [=].
Qed.
End ListBodies.

(** X7: the three list endpoints answer every request.  Whatever texts are
    sent as [page] and [limit], no call panics on a division by zero; the
    answer is 400 (a malformed domain id), 500 (the database failed) or 200,
    and a 200 body carries the page read from the query (1 when it is no
    number of at least 1) and a limit between 1 and 100 (10 when the query's
    limit is no number between 1 and 100). *)
Theorem list_endpoints_answer {S} (db : Backend S) (search : option string)
        (domainId : option api.UUIDText) (page limit : option string) (st : S) :
  Contracts.listed page limit
    (api.UserHandler_ListUsers (mkUserService (NewUserRepository db))
                               search domainId page limit st)
  /\ Contracts.listed page limit
       (api.RoleHandler_ListRoles (mkRoleService (NewRoleRepository db))
                                  search domainId page limit st)
  /\ Contracts.listed page limit
       (api.DomainHandler_ListDomains (mkDomainService (NewDomainRepository db))
                                      search page limit st).
Proof.
  pose proof (pageParam_range page) as Hp.
  pose proof (limitParam_range limit) as Hl.
  pose proof (normLimit_spec (api.limitParam limit)) as (Hn & _).
  assert (Hbody : forall Row (queryCount : string -> result Z)
                         (queryRows : string -> Z -> Z -> result (list Row))
                         (q message : string),
             Contracts.listed page limit
               match ListWithPagination queryCount queryRows q
                                        (normPage (api.pageParam page))
                                        (normLimit (api.limitParam limit)) with
               | Panic msg => Panic msg
               | Return (Err _) => Return (api.JSONError 500 message)
               | Return (Ok result) => Return (api.JSON 200 result)
               end).
  { intros Row queryCount queryRows q message. unfold Contracts.listed.
    destruct (ListWithPagination_returns queryCount queryRows q _ _ Hp Hl)
      as (r & -> & Hr).
    destruct r as [result|err].
    - destruct (Hr result eq_refl) as [E1 E2].
      eexists. split; [reflexivity|]. cbn beta iota. rewrite E1, E2. auto.
    - eexists. split; [reflexivity|]. now right. }
  split_all.
  - unfold api.UserHandler_ListUsers. cbv zeta.
    destruct domainId as [[id|text]|];
      [apply Hbody | eexists; split; [reflexivity | now left] | apply Hbody].
  - unfold api.RoleHandler_ListRoles. cbv zeta.
    destruct domainId as [[id|text]|];
      [apply Hbody | eexists; split; [reflexivity | now left] | apply Hbody].
  - unfold api.DomainHandler_ListDomains. cbv zeta. apply Hbody.
Qed.

(** A limit of zero, a page that is no number, no domain id. *)
Example ListUsers_defaults :
  api.UserHandler_ListUsers (mkUserService (NewUserRepository memdb.backend))
                            None (Some (api.ValidUUID 0xd0%N)) (Some "first") (Some "0")
                            memdb.scenario
  = Return (api.JSON 200 (mkListResult [memdb.U] 1 1 10 1))
  /\ api.UserHandler_ListUsers (mkUserService (NewUserRepository memdb.backend))
                               None None None None memdb.scenario
     = Return (api.JSON 200 (mkListResult [] 0 1 10 0))
  /\ api.UserHandler_ListUsers (mkUserService (NewUserRepository memdb.backend))
                               None (Some (api.InvalidUUID "d0")) None None memdb.scenario
     = Return (api.JSONError 400 "Invalid domain UUID").
Proof. split_all; by_eval. Qed.

(** *** Numbers in the query *)








(** Texts that are no decimal numbers, and numbers that leave an int. *)
Example query_numbers_edge_cases :
  strconv.Atoi "" = (0, Some strconv.ErrSyntax)
  /\ strconv.Atoi "+" = (0, Some strconv.ErrSyntax)
  /\ strconv.Atoi "1_000" = (0, Some strconv.ErrSyntax)
  /\ strconv.Atoi " 7" = (0, Some strconv.ErrSyntax)
  /\ strconv.Atoi "+007" = (7, None)
  /\ strconv.Atoi "-9223372036854775808" = (int.MinInt, None)
  /\ strconv.Atoi "9223372036854775808" = (int.MaxInt, Some strconv.ErrRange)
  /\ strconv.Atoi "99999999999999999999999x" = (int.MaxInt, Some strconv.ErrRange)
  /\ api.pageParam (Some "9223372036854775808") = 1
  /\ api.pageParam (Some "0x10") = 1
  /\ api.limitParam (Some "") = 10
  /\ api.limitParam None = 10.
Proof. split_all; by_eval. Qed.

(** *** The repositories called with a zero limit *)

(** X9: the repositories divide by the limit they are given.  Called with
    limit 0, [ListWithPagination] runs both statements and, when both
    answer, panics on the division for TotalPages; with any other limit it
    returns.  Only the services' defaults keep the endpoints away from
    it. *)
Theorem repository_limit_zero {S} (db : Backend S) (search : string) (domainID : uuid.UUID)
        (page : Z) (st : S) (total : Z) (rows : list User.t) :
  countUsers db domainID search st = Ok total ->
  pageUsers db domainID search 0 0 st = Ok rows ->
  UserRepository.ListWithPagination (NewUserRepository db) search domainID page 0 st
  = Panic "runtime error: integer divide by zero"
  /\ forall limit, limit <> 0 ->
       exists r, UserRepository.ListWithPagination (NewUserRepository db)
                   search domainID page limit st = Return r.
Proof.
  intros Hc Hr. cbn [UserRepository.ListWithPagination NewUserRepository].
  unfold userRepository_ListWithPagination, ListWithPagination. rewrite Hc. split.
  - assert (E : int.mul (int.sub page 1) 0 = 0)
      by (unfold int.mul; now rewrite Z.mul_0_r).
    rewrite E, Hr. reflexivity.
  - intros limit Hl. cbv zeta.
    destruct (pageUsers db domainID search limit _ st); [|eexists; reflexivity].
    unfold int.quo. destruct (Z.eqb_spec limit 0) as [E|_]; [contradiction|].
    eexists; reflexivity.
Qed.

Lemma repository_limit_zero_witness :
  UserRepository.ListWithPagination (NewUserRepository memdb.backend) "" 0xd0%N 1 0
                                    memdb.scenario
  = Panic "runtime error: integer divide by zero"
  /\ forall limit, limit <> 0 ->
       exists r, UserRepository.ListWithPagination (NewUserRepository memdb.backend)
                   "" 0xd0%N 1 limit memdb.scenario = Return r.
Proof.
  apply (repository_limit_zero memdb.backend "" 0xd0%N 1 memdb.scenario 1 []);
    reflexivity.
Defined.

(** *** Paging through a list *)



Section Paging.
Context {S : Type} (db : Backend S).
Variables (search : string) (domainID : uuid.UUID) (st : S) (all : list User.t).
Hypothesis count_all :
  countUsers db domainID search st = Ok (Z.of_nat (List.length all)).
Hypothesis limit_offset :
  forall limit offset, 0 <= limit -> 0 <= offset ->
    pageUsers db domainID search limit offset st
    = Ok (firstn (Z.to_nat limit) (skipn (Z.to_nat offset) all)).
Hypothesis fits : Z.of_nat (List.length all) <= int.MaxInt - 100.

End Paging.




(** Alice and bob, one to a page. *)
Example pages_of_one :
  List.map (fun page =>
              List.map User.Username
                (Contracts.itemsOf
                   (ListUsersWithPagination (mkUserService (NewUserRepository memdb.backend))
                                            "" 0xd0%N page 1 memdbw.withBob)))
           [1; 2; 3]
  = [["alice"]; ["bob"]; []].
Proof. by_eval. Qed.

(** ** Creating a user, resetting a password, and logging in *)

Section UserWrites.
Context {S : Type} (db : Backend S) (stmts : userwrites.UserStatements S).

Lemma CreateUser_Ok domainID roleID firstName lastName username email password st user st' :
  userwrites.CreateUser (userwrites.NewUserRepositoryRW db stmts)
                        domainID roleID firstName lastName username email password st
  = (Ok user, st') ->
  exists id,
    user = User.mk id domainID roleID firstName lastName username email
                   (hashPassword password) time.Zero time.Zero
    /\ userwrites.insertUser stmts
         (User.mk (fst (uuid_New db st)) domainID roleID firstName lastName username email
                  (hashPassword password) time.Zero time.Zero)
         (snd (uuid_New db st))
       = (Ok id, st').
Proof.
  unfold userwrites.CreateUser.
  cbn [userwrites.Create userwrites.NewUserRepositoryRW].
  unfold userwrites.userRepository_Create.
  destruct (uuid_New db st) as [id0 st0]. cbn [fst snd].
  unfold userwrites.setUserID. cbn.
  destruct (userwrites.insertUser stmts _ st0) as [[id|err] st1] eqn:Hi; [|discriminate].
  intros [= <- <-]. now exists id.
Qed.
End UserWrites.

(** X11: a created user can log in.  The entity [CreateUser] returns
    carries the SHA-256 hex digest of the password; when the directory then
    finds under the username a row with the domain and the hash of that
    entity, and the row's role and domain exist, [Login] in that domain
    with that password succeeds with the row's profile, and it is refused
    in every other domain and with every password of another digest. *)
Theorem CreateUser_then_Login {S} (db : Backend S) (stmts : userwrites.UserStatements S)
        (s : authService S) (domainID roleID : uuid.UUID)
        (firstName lastName username email password : string) (st st' : S)
        (user stored : User.t) (role : Role.t) (domain : Domain.t)
        (tExp tIat tNbf : time.Time) :
  userwrites.CreateUser (userwrites.NewUserRepositoryRW db stmts)
                        domainID roleID firstName lastName username email password st
  = (Ok user, st') ->
  UserRepository.GetByUsername (userRepo s) username st' = Ok stored ->
  User.DomainID stored = User.DomainID user ->
  User.PasswordHash stored = User.PasswordHash user ->
  RoleRepository.GetByID (roleRepo s) (User.RoleID stored) st' = Ok role ->
  DomainRepository.GetByID (domainRepo s) (User.DomainID stored) st' = Ok domain ->
  User.PasswordHash user = hashPassword password
  /\ (exists token,
        Login s domainID username password tExp tIat tNbf st'
        = Ok (mkLoginResponse token (profileOf stored role domain)))
  /\ (forall other, other <> domainID ->
        Login s other username password tExp tIat tNbf st' = Err InvalidCredentials)
  /\ (forall guess, hashPassword guess <> hashPassword password ->
        Login s domainID username guess tExp tIat tNbf st' = Err InvalidCredentials).
Proof.
  intros Hc Hu Hd Hp Hr Hdom.
  apply CreateUser_Ok in Hc. destruct Hc as (id & -> & _).
  cbn [User.DomainID User.PasswordHash] in Hd, Hp.
  split; [reflexivity|]. split; [|split].
  - unfold Login. rewrite Hu.
    apply uuid_eqb_eq in Hd. rewrite Hd. cbn [negb].
    assert (Hv : verifyPassword (User.PasswordHash stored) password = true)
      by (rewrite Hp; now apply VerifyPassword_true).
    rewrite Hv. cbn [negb]. rewrite generateToken_Ok.
    assert (Hb : buildUserProfile s stored st' = Ok (profileOf stored role domain))
      by (apply buildUserProfile_Ok; now exists role, domain).
    rewrite Hb. eexists. reflexivity.
  - intros other Ho. apply (Login_wrong_domain s other username password _ _ _ st' stored Hu).
    congruence.
  - intros guess Hg.
    apply (Login_wrong_password s domainID username guess _ _ _ st' stored Hu).
    rewrite Hp. rewrite verifyPassword_VerifyPassword.
    destruct (VerifyPassword (hashPassword password) guess) eqn:E; [|reflexivity].
    apply VerifyPassword_true in E. contradiction.
Qed.

Lemma CreateUser_then_Login_witness :
  User.PasswordHash
    (User.mk 0x100%N 0xd0%N 0xa0%N "Bob" "Builder" "bob" "bob@acme.test"
             (hashPassword "hunter22") time.Zero time.Zero)
  = hashPassword "hunter22"
  /\ (exists token,
        Login memdb.authService 0xd0%N "bob" "hunter22" memdb.t0 memdb.t0 memdb.t0
              memdbw.withBob
        = Ok (mkLoginResponse token
                (profileOf (User.mk 0x100%N 0xd0%N 0xa0%N "Bob" "Builder" "bob" "bob@acme.test"
                                    (hashPassword "hunter22") memdb.t0 memdb.t0)
                           memdb.R memdb.D)))
  /\ (forall other, other <> 0xd0%N ->
        Login memdb.authService other "bob" "hunter22" memdb.t0 memdb.t0 memdb.t0
              memdbw.withBob = Err InvalidCredentials)
  /\ (forall guess, hashPassword guess <> hashPassword "hunter22" ->
        Login memdb.authService 0xd0%N "bob" guess memdb.t0 memdb.t0 memdb.t0
              memdbw.withBob = Err InvalidCredentials).
Proof.
  apply (CreateUser_then_Login memdb.backend memdbw.statements memdb.authService
           0xd0%N 0xa0%N "Bob" "Builder" "bob" "bob@acme.test" "hunter22"
           memdb.scenario memdbw.withBob).
  - vm_compute. reflexivity.
  - vm_compute. reflexivity.
  - reflexivity.
  - reflexivity.
  - vm_compute. reflexivity.
  - vm_compute. reflexivity.
Defined.

(** A second user of the same name, or one in a domain that does not
    exist, is refused by the database, and the error comes back as it is. *)
Example CreateUser_refused :
  fst (userwrites.CreateUser memdbw.userRepository 0xd0%N 0xa0%N "Al" "Ice" "alice"
                             "al@acme.test" "pw" memdb.scenario)
  = Err (errors.New "pq: duplicate key value violates unique constraint")
  /\ fst (userwrites.CreateUser memdbw.userRepository 0xee%N 0xa0%N "Eve" "Nowhere" "eve"
                                "eve@acme.test" "pw" memdb.scenario)
     = Err (errors.New "pq: insert or update on table violates foreign key constraint").
Proof. split_all; by_eval. Qed.

(** X12: after a password reset the new password is the one that logs in.
    When the database, whatever hash the password statement is given,
    afterwards holds that hash in the user's row, a successful
    [ResetUserPassword] leaves a row that is verified by exactly the
    passwords with the digest of the new one: [Login] with a password of
    another digest -- the old one -- is refused. *)
Theorem ResetUserPassword_then_Login {S} (db : Backend S)
        (stmts : userwrites.UserStatements S) (s : authService S)
        (id domainID : uuid.UUID) (username newPassword : string) (st st' : S)
        (tExp tIat tNbf : time.Time) :
  (forall hash st1,
      userwrites.updateUserPassword stmts id hash st = (None, st1) ->
      exists stored,
        UserRepository.GetByUsername (userRepo s) username st1 = Ok stored
        /\ User.PasswordHash stored = hash) ->
  userwrites.ResetUserPassword (userwrites.NewUserRepositoryRW db stmts) id newPassword st
  = (None, st') ->
  exists stored,
    UserRepository.GetByUsername (userRepo s) username st' = Ok stored
    /\ User.PasswordHash stored = hashPassword newPassword
    /\ verifyPassword (User.PasswordHash stored) newPassword = true
    /\ (forall guess, hashPassword guess <> hashPassword newPassword ->
          verifyPassword (User.PasswordHash stored) guess = false
          /\ Login s domainID username guess tExp tIat tNbf st' = Err InvalidCredentials).
Proof.
  intros Hlaw Hreset.
  unfold userwrites.ResetUserPassword in Hreset.
  cbn [userwrites.UpdatePassword userwrites.NewUserRepositoryRW] in Hreset.
  unfold userwrites.userRepository_UpdatePassword in Hreset.
  destruct (Hlaw _ _ Hreset) as (stored & Hu & Hp).
  exists stored. split; [exact Hu|]. split; [exact Hp|]. split.
  - rewrite Hp. now apply VerifyPassword_true.
  - intros guess Hg.
    assert (Hv : verifyPassword (User.PasswordHash stored) guess = false).
    { rewrite Hp, verifyPassword_VerifyPassword.
      destruct (VerifyPassword (hashPassword newPassword) guess) eqn:E; [|reflexivity].
      apply VerifyPassword_true in E. contradiction. }
    split; [exact Hv|].
    exact (Login_wrong_password s domainID username guess _ _ _ st' stored Hu Hv).
Qed.

Lemma ResetUserPassword_then_Login_witness :
  exists stored,
    UserRepository.GetByUsername (userRepo memdb.authService) "alice" memdbw.afterReset
    = Ok stored
    /\ User.PasswordHash stored = hashPassword "n3w-s3cret"
    /\ verifyPassword (User.PasswordHash stored) "n3w-s3cret" = true
    /\ (forall guess, hashPassword guess <> hashPassword "n3w-s3cret" ->
          verifyPassword (User.PasswordHash stored) guess = false
          /\ Login memdb.authService 0xd0%N "alice" guess memdb.t0 memdb.t0 memdb.t0
                   memdbw.afterReset = Err InvalidCredentials).
Proof.
  apply (ResetUserPassword_then_Login memdb.backend memdbw.statements memdb.authService
           0x01%N 0xd0%N "alice" "n3w-s3cret" memdb.scenario memdbw.afterReset).
  - intros hash st1 H. injection H as <-.
    eexists. split; reflexivity.
  - vm_compute. reflexivity.
Defined.

(** Alice before and after the reset. *)
Example ResetUserPassword_alice :
  (exists token,
      Login memdb.authService 0xd0%N "alice" "n3w-s3cret" memdb.t0 memdb.t0 memdb.t0
            memdbw.afterReset
      = Ok (mkLoginResponse token (profileOf memdb.U memdb.R memdb.D)))
  /\ Login memdb.authService 0xd0%N "alice" "s3cret!" memdb.t0 memdb.t0 memdb.t0
            memdbw.afterReset = Err InvalidCredentials
  /\ Login memdb.authService 0xd0%N "alice" "n3w-s3cret" memdb.t0 memdb.t0 memdb.t0
            memdb.scenario = Err InvalidCredentials.
Proof. split_all; [eexists|..]; by_eval. Qed.

(** ** Stored hashes that no password opens *)

Lemma hexDigit_isLowerHex (z : Z) : Contracts.isLowerHex (Encoding.hexDigit z) = true.
Proof.
  unfold Encoding.hexDigit.
  destruct (Z.to_nat z) as [|[|[|[|[|[|[|[|[|[|[|[|[|[|[|[|n]]]]]]]]]]]]]]]];
    try reflexivity.
  now destruct n.
Qed.

Lemma Sprintf_x_isLowerHex (b : list byte) :
  forallb Contracts.isLowerHex (Encoding.chars (Encoding.Sprintf_x b)) = true.
Proof.
  unfold Encoding.Sprintf_x, Encoding.chars, Encoding.str.
  rewrite list_ascii_of_string_of_list_ascii.
  induction b as [|x b IH]; [reflexivity|].
  cbn [flat_map Encoding.hexByte app forallb].
  now rewrite !hexDigit_isLowerHex, IH.
Qed.

(** X13: a stored hash that is not 64 lower-case hexadecimal digits locks
    its user out.  No password logs in a user whose row holds the empty
    string, a digest in upper case, or a digest of another length: the
    comparison is of the texts, byte for byte. *)
Theorem Login_needs_hex_digest {S} (s : authService S) (domainID : uuid.UUID)
        (username password : string) (tExp tIat tNbf : time.Time) (st : S) (user : User.t) :
  UserRepository.GetByUsername (userRepo s) username st = Ok user ->
  String.length (User.PasswordHash user) <> 64%nat
  \/ forallb Contracts.isLowerHex (Encoding.chars (User.PasswordHash user)) = false ->
  Login s domainID username password tExp tIat tNbf st = Err InvalidCredentials.
Proof.
  intros Hu Hbad.
  apply (Login_wrong_password s domainID username password _ _ _ st user Hu).
  rewrite verifyPassword_VerifyPassword.
  destruct (VerifyPassword (User.PasswordHash user) password) eqn:E; [|reflexivity].
  apply VerifyPassword_true in E. exfalso. rewrite <- E in Hbad.
  destruct Hbad as [Hlen | Hhex].
  - apply Hlen. unfold hashPassword. now rewrite Sprintf_x_length, Sum256_length.
  - unfold hashPassword in Hhex. rewrite Sprintf_x_isLowerHex in Hhex. discriminate.
Qed.

Lemma Login_needs_hex_digest_witness :
  Login memdb.authService 0xd0%N "alice" "s3cret!" memdb.t0 memdb.t0 memdb.t0
        (memdbw.withUsers
           [User.mk 0x01%N 0xd0%N 0xa0%N "Alice" "Liddell" "alice" "alice@acme.test"
                    "5CB7B35EB7AE9BBD505BAA5CDE3FB64C1E9A5E8862072013989C0A557AB9EAA2" 0 0]
           memdb.scenario)
  = Err InvalidCredentials.
Proof.
  apply (Login_needs_hex_digest memdb.authService 0xd0%N "alice" "s3cret!"
           memdb.t0 memdb.t0 memdb.t0
           (memdbw.withUsers
              [User.mk 0x01%N 0xd0%N 0xa0%N "Alice" "Liddell" "alice" "alice@acme.test"
                       "5CB7B35EB7AE9BBD505BAA5CDE3FB64C1E9A5E8862072013989C0A557AB9EAA2" 0 0]
              memdb.scenario)
           (User.mk 0x01%N 0xd0%N 0xa0%N "Alice" "Liddell" "alice" "alice@acme.test"
                    "5CB7B35EB7AE9BBD505BAA5CDE3FB64C1E9A5E8862072013989C0A557AB9EAA2" 0 0)).
  - reflexivity.
  - right. vm_compute. reflexivity.
Defined.

(** ** Updates answer with the request *)

(** X14: [UpdateUser] and [UpdateRole] do not read back what they wrote.
    On success the user returned is the request itself with the nil UUID as
    domain, an empty password hash and zero timestamps, and the role
    returned has the nil UUID as domain and zero timestamps, whatever the
    stored rows hold; on failure the error is the database's. *)
Theorem updates_return_the_request {S} (db : Backend S) (stmts : userwrites.UserStatements S)
        (id roleID : uuid.UUID) (firstName lastName username email roleName : string)
        (roleClaims : claimsMap) (st : S) :
  userwrites.UpdateUser (userwrites.NewUserRepositoryRW db stmts)
                        id firstName lastName username email roleID st
  = match userwrites.updateUser stmts
            (User.mk id uuid.Nil roleID firstName lastName username email ""
                     time.Zero time.Zero) st with
    | (None, st') =>
        (Ok (User.mk id uuid.Nil roleID firstName lastName username email ""
                     time.Zero time.Zero), st')
    | (Some err, st') => (Err err, st')
    end
  /\ UpdateRole (mkRoleService (NewRoleRepository db)) id roleName roleClaims st
     = match updateRole db (Role.mk id uuid.Nil roleName (nonNil roleClaims)
                                    time.Zero time.Zero) st with
       | (None, st') =>
           (Ok (Role.mk id uuid.Nil roleName (nonNil roleClaims) time.Zero time.Zero), st')
       | (Some err, st') => (Err err, st')
       end.
Proof.
  split.
  - unfold userwrites.UpdateUser.
    cbn [userwrites.Update userwrites.NewUserRepositoryRW].
    unfold userwrites.userRepository_Update.
    now destruct (userwrites.updateUser stmts _ st) as [[err|] st'].
  - unfold UpdateRole, nonNil.
    cbn [RoleRepository.Update NewRoleRepository roleService_repo].
    unfold roleRepository_Update.
    now destruct (updateRole db _ st) as [[err|] st'].
Qed.

(** Renaming alice: the answer shows no domain, the row keeps it. *)
Example UpdateUser_alice :
  let '(r, st) := userwrites.UpdateUser memdbw.userRepository 0x01%N "Alice" "Liddell"
                                        "alice" "alice@wonder.land" 0xa0%N memdb.scenario in
  match r with
  | Ok user => User.DomainID user = uuid.Nil /\ User.PasswordHash user = ""
  | Err _ => False
  end
  /\ List.map User.DomainID (memdb.users st) = [0xd0%N]
  /\ List.map User.Email (memdb.users st) = ["alice@wonder.land"]
  /\ List.map User.PasswordHash (memdb.users st) = [hashPassword "s3cret!"].
Proof. vm_compute. split_all; reflexivity. Qed.

(** ** The Authorization header *)

Lemma HasPrefix_append (prefix rest : string) :
  strings.HasPrefix (prefix +:+ rest) prefix = true
  /\ strings.from (String.length prefix) (prefix +:+ rest) = rest.
Proof.
  induction prefix as [|c prefix [IH1 IH2]]; [now destruct rest|].
  change (String c prefix +:+ rest) with (String c (prefix +:+ rest)).
  cbn. rewrite Ascii.eqb_refl. now split.
Qed.

Lemma HasPrefix_split (s prefix : string) :
  strings.HasPrefix s prefix = true ->
  s = prefix +:+ strings.from (String.length prefix) s.
Proof.
  revert s. induction prefix as [|c prefix IH]; intros s; [reflexivity|].
  destruct s as [|a s]; [discriminate|]. cbn.
  intros H. apply andb_true_iff in H. destruct H as [Hc Hs].
  apply Ascii.eqb_eq in Hc. subst a.
  change (String c prefix +:+ strings.from (String.length prefix) s)
    with (String c (prefix +:+ strings.from (String.length prefix) s)).
  f_equal. now apply IH.
Qed.

Lemma length_append (a b : string) :
  String.length (a +:+ b) = (String.length a + String.length b)%nat.
Proof.
  induction a as [|c a IH]; [reflexivity|].
  change (String c a +:+ b) with (String c (a +:+ b)). cbn. now rewrite IH.
Qed.

(** X15: the header check is exact.  Comparing the header with what
    [strings.TrimPrefix] leaves of it accepts precisely the headers that
    begin with "Bearer " -- in this spelling, with one space -- and hands on
    everything after these seven bytes, also when that is empty or holds
    further spaces. *)
Theorem authorization_bearer (authHeader : string) :
  (api.authorization authHeader = api.Required <-> authHeader = "")
  /\ (forall tokenString,
        api.authorization authHeader = api.TokenString tokenString
        <-> authHeader = "Bearer " +:+ tokenString)
  /\ (api.authorization authHeader = api.InvalidFormat
      <-> authHeader <> "" /\ strings.HasPrefix authHeader "Bearer " = false).
Proof.
  unfold api.authorization, strings.TrimPrefix.
  destruct (String.eqb_spec authHeader "") as [->|Hne].
  - split_all; easy.
  - destruct (strings.HasPrefix authHeader "Bearer ") eqn:Hp.
    + apply HasPrefix_split in Hp.
      set (rest := strings.from (String.length "Bearer ") authHeader) in *.
      assert (Hrest : rest <> authHeader).
      { intros E. apply (f_equal String.length) in E. rewrite Hp in E.
        rewrite length_append in E. cbn in E. lia. }
      apply String.eqb_neq in Hrest. rewrite Hrest.
      split; [|split].
      * split; [discriminate | contradiction].
      * intros tokenString. split.
        -- intros [= <-]. exact Hp.
        -- intros E. f_equal. rewrite Hp in E.
           destruct (HasPrefix_append "Bearer " rest) as [_ E1].
           destruct (HasPrefix_append "Bearer " tokenString) as [_ E2].
           rewrite <- E1, <- E2. now rewrite E.
      * split; [discriminate | intros [_ H]; discriminate H].
    + rewrite String.eqb_refl. split; [|split].
      * split; [discriminate | contradiction].
      * intros tokenString. split; [discriminate|].
        intros ->. destruct (HasPrefix_append "Bearer " tokenString) as [E _].
        rewrite E in Hp. discriminate Hp.
      * split; [now split | reflexivity].
Qed.

Example authorization_headers :
  api.authorization "Bearer abc.def.ghi" = api.TokenString "abc.def.ghi"
  /\ api.authorization "Bearer " = api.TokenString ""
  /\ api.authorization "Bearer  abc" = api.TokenString " abc"
  /\ api.authorization "bearer abc" = api.InvalidFormat
  /\ api.authorization "Bearer" = api.InvalidFormat
  /\ api.authorization "Basic abc" = api.InvalidFormat
  /\ api.authorization "" = api.Required.
Proof. split_all; reflexivity. Qed.

(** ** The database configuration *)

Lemma getEnv_spec (env : config.Environ) (key defaultVal : string) :
  (env key = "" -> config.getEnv env key defaultVal = defaultVal)
  /\ (env key <> "" -> config.getEnv env key defaultVal = env key).
Proof.
  unfold config.getEnv. destruct (String.eqb_spec (env key) ""); cbn [negb]; split; easy.
Qed.

Lemma getEnv_non_empty (env : config.Environ) (key defaultVal : string) :
  defaultVal <> "" -> config.getEnv env key defaultVal <> "".
Proof.
  intros Hd. destruct (getEnv_spec env key defaultVal) as [H0 H1].
  destruct (String.eqb_spec (env key) "") as [E|E]; [now rewrite H0 | now rewrite H1].
Qed.

(** X16: the configuration has no empty coordinate.  In every environment
    the host, port, user, database name and SSL mode handed to the driver
    are non-empty -- a variable that is unset or set to the empty string
    falls back to localhost, 5432, postgres, mydb and disable, any other
    value is taken as it is --, while the password is the variable as it
    is, empty when unset. *)
Theorem NewDatabaseConfig_complete (env : config.Environ) :
  let c := config.NewDatabaseConfig env in
  config.Host c <> "" /\ config.Port c <> "" /\ config.User c <> ""
  /\ config.DBName c <> "" /\ config.SSLMode c <> ""
  /\ config.Password c = env "DB_PASSWORD"
  /\ (env "DB_HOST" = "" -> config.Host c = "localhost")
  /\ (env "DB_PORT" = "" -> config.Port c = "5432")
  /\ (env "DB_USER" = "" -> config.User c = "postgres")
  /\ (env "DB_NAME" = "" -> config.DBName c = "mydb")
  /\ (env "DB_SSLMODE" = "" -> config.SSLMode c = "disable")
  /\ (env "DB_HOST" <> "" -> config.Host c = env "DB_HOST")
  /\ (env "DB_PORT" <> "" -> config.Port c = env "DB_PORT")
  /\ (env "DB_USER" <> "" -> config.User c = env "DB_USER")
  /\ (env "DB_NAME" <> "" -> config.DBName c = env "DB_NAME")
  /\ (env "DB_SSLMODE" <> "" -> config.SSLMode c = env "DB_SSLMODE").
Proof.
  cbv zeta. cbn [config.NewDatabaseConfig config.Host config.Port config.User
                 config.Password config.DBName config.SSLMode].
  split_all; try (apply getEnv_non_empty; discriminate).
  - destruct (getEnv_spec env "DB_PASSWORD" "") as [H0 H1].
    destruct (String.eqb_spec (env "DB_PASSWORD") "") as [E|E];
      [rewrite H0 by exact E; now rewrite E | now rewrite H1].
  - apply getEnv_spec.
  - apply getEnv_spec.
  - apply getEnv_spec.
  - apply getEnv_spec.
  - apply getEnv_spec.
  - apply getEnv_spec.
  - apply getEnv_spec.
  - apply getEnv_spec.
  - apply getEnv_spec.
  - apply getEnv_spec.
Qed.

Example ConnectionString_defaults :
  config.ConnectionString (config.NewDatabaseConfig (fun _ => ""))
  = "host=localhost port=5432 user=postgres password= dbname=mydb sslmode=disable".
Proof. reflexivity. Qed.
